(** * tracecmd.py: the Python interface to the trace-cmd reader

    A shallow embedding of [tracecmd.py] (classes [Event], [Field] and
    [Trace]) together with the properties of its error handling, of its
    cached attributes and of its per-CPU iteration.

    Python objects are mutable, so every method is a state transformer over
    the object it is called on.  A method may raise, and an exception leaves
    the mutations done so far in place.  Calls into the native library that
    touch the capture file or the session's process tables are traced, so
    that "served from the cache" can be stated. *)

From Stdlib Require Import ZArith List String Bool Lia Arith Sorted.
From Stdlib.Strings Require Import Byte.
From Stdlib Require Import DecimalString.
Import ListNotations.
Local Open Scope string_scope.
Local Open Scope list_scope.
Local Open Scope Z_scope.

Set Implicit Arguments.

(** ** Exceptions and results *)

(** Failure modes of the native field decoder. *)
Inductive decode_error : Type :=
| Truncated
| InvalidText.

(** The exception classes the module raises or lets through.  [KeyError],
    [ValueError] and [IndexError] are Python built-ins; [FieldError] and
    [FileFormatError] are declared in [tracecmd.py]; [DecodeError] stands for
    whatever the native string decoder raises. *)
Inductive exn : Type :=
| KeyError (msg : string)
| ValueError (msg : string)
| IndexError (msg : string)
| FieldError (msg : string)
| FileFormatError (msg : string)
| DecodeError (e : decode_error).

Inductive result (A : Type) : Type :=
| Return (a : A)
| Raise (e : exn).
Arguments Raise {A} e.

Definition result_map {A B : Type} (f : A -> B) (r : result A) : result B :=
  match r with
  | Return a => Return (f a)
  | Raise e => Raise e
  end.

(** ** Traced native calls *)

Inductive native_call : Type :=
| tracecmd_read_cpu_first_call (cpu : Z)
| tracecmd_read_cpu_last_call (cpu : Z)
| tracecmd_read_data_call (cpu : Z)
| tracecmd_set_cpu_to_timestamp_call (cpu ts : Z)
| tracecmd_set_all_cpus_to_timestamp_call (ts : Z)
| pevent_data_pid_call
| pevent_data_comm_from_pid_call (pid : Z).

(** ** Methods as state transformers *)

Definition Py (S A : Type) : Type := S -> result A * S * list native_call.

Definition ret {S A : Type} (a : A) : Py S A :=
  fun s => (Return a, s, []).

Definition raise {S A : Type} (e : exn) : Py S A :=
  fun s => (Raise e, s, []).

Definition bind {S A B : Type} (m : Py S A) (k : A -> Py S B) : Py S B :=
  fun s =>
    match m s with
    | (Return a, s1, l1) =>
        match k a s1 with
        | (r, s2, l2) => (r, s2, l1 ++ l2)
        end
    | (Raise e, s1, l1) => (Raise e, s1, l1)
    end.

Definition gets {S A : Type} (f : S -> A) : Py S A :=
  fun s => (Return (f s), s, []).

Definition modify {S : Type} (f : S -> S) : Py S unit :=
  fun s => (Return tt, f s, []).

Definition traced {S : Type} (c : native_call) : Py S unit :=
  fun s => (Return tt, s, [c]).

Declare Scope py_scope.
Delimit Scope py_scope with py.
Notation "x <- m ;; k" := (bind m (fun x => k))
  (at level 61, m at next level, right associativity) : py_scope.
Notation "m ;; k" := (bind m (fun _ => k))
  (at level 61, right associativity) : py_scope.
Local Open Scope py_scope.

(** The three parts of an outcome: what the call gave, the object after it
    and the native calls it made. *)
Definition value_of {R S : Type} (o : R * S * list native_call) : R :=
  fst (fst o).
Definition state_of {R S : Type} (o : R * S * list native_call) : S :=
  snd (fst o).
Definition calls_of {R S : Type} (o : R * S * list native_call)
    : list native_call :=
  snd o.

(** ** Python built-ins used by the module *)

(** [range(0, n)]. *)
Definition py_range (n : Z) : list Z :=
  map Z.of_nat (seq 0 (Z.to_nat n)).

(** [min(l)] and [max(l)]: [None] stands for the [ValueError] raised on an
    empty sequence. *)
Definition py_min (l : list Z) : option Z :=
  match l with
  | [] => None
  | x :: r => Some (fold_left Z.min r x)
  end.

Definition py_max (l : list Z) : option Z :=
  match l with
  | [] => None
  | x :: r => Some (fold_left Z.max r x)
  end.

(** [l[i]] for a list [l]: a negative [i] counts from the end. *)
Definition py_index (l : list Z) (i : Z) : result Z :=
  let n := Z.of_nat (List.length l) in
  let j := if i <? 0 then i + n else i in
  if (0 <=? j) && (j <? n)
  then Return (nth (Z.to_nat j) l 0)
  else Raise (IndexError "list index out of range").

(** [str(i)] for an integer, as [%d] formats it. *)
Definition py_str_of_int (i : Z) : string :=
  NilZero.string_of_int (Z.to_int i).

(** ** Built-in exceptions of the remaining methods *)

(** [Event.__str__] and [cached_property] can also let a [TypeError] or an
    [AttributeError] through. *)
Inductive py_exception : Type :=
| raised (e : exn)
| TypeError (msg : string)
| AttributeError (msg : string).

Inductive outcome (A : Type) : Type :=
| Returned (a : A)
| Raised (e : py_exception).
Arguments Raised {A} e.

Definition PyX (S A : Type) : Type := S -> outcome A * S * list native_call.

Definition retx {S A : Type} (a : A) : PyX S A :=
  fun s => (Returned a, s, []).

Definition raisex {S A : Type} (e : py_exception) : PyX S A :=
  fun s => (Raised e, s, []).

Definition bindx {S A B : Type} (m : PyX S A) (k : A -> PyX S B) : PyX S B :=
  fun s =>
    match m s with
    | (Returned a, s1, l1) =>
        match k a s1 with
        | (r, s2, l2) => (r, s2, l1 ++ l2)
        end
    | (Raised e, s1, l1) => (Raised e, s1, l1)
    end.

(** A method that raises within [exn] only, run where more can be raised. *)
Definition liftx {S A : Type} (m : Py S A) : PyX S A :=
  fun s =>
    match m s with
    | (Return a, s1, l1) => (Returned a, s1, l1)
    | (Raise e, s1, l1) => (Raised (raised e), s1, l1)
    end.

Declare Scope pyx_scope.
Delimit Scope pyx_scope with pyx.
Notation "x <- m ;; k" := (bindx m (fun x => k))
  (at level 61, m at next level, right associativity) : pyx_scope.
Notation "m ;; k" := (bindx m (fun _ => k))
  (at level 61, right associativity) : pyx_scope.

(** ** The native library, [ctracecmd] *)

(** [struct pevent_record] as seen through its SWIG getters. *)
Record pevent_record : Type := {
  rec_ts : Z;
  rec_cpu : Z;
  rec_data : list byte
}.

Definition pevent_record_ts_get (r : pevent_record) : Z := rec_ts r.
Definition pevent_record_cpu_get (r : pevent_record) : Z := rec_cpu r.
Definition pevent_record_data_get (r : pevent_record) : list byte := rec_data r.

(** The schema and decoding half of [ctracecmd] is not part of
    [tracecmd.py]; the wrapper is embedded over any implementation of it.
    The result types are those the wrapper relies on: a pointer-valued
    lookup gives [None] for a null pointer, [pevent_read_number_field] gives
    the return code and the value read, [py_field_get_str] gives a string or
    raises, and [pevent_data_comm_from_pid] always names the process (an
    absent entry resolves to the table's "unknown" sentinel). *)
Class PEventLib : Type := {
  pevent : Type;
  event_format : Type;
  format_field : Type;
  pevent_alloc : pevent;
  event_format_name_get : event_format -> string;
  pevent_find_field : event_format -> string -> option format_field;
  pevent_find_any_field : event_format -> string -> option format_field;
  pevent_read_number_field : format_field -> list byte -> Z * Z;
  py_field_get_str : format_field -> pevent_record -> result string;
  pevent_data_type : pevent -> pevent_record -> Z;
  pevent_data_event_from_type : pevent -> Z -> option event_format;
  pevent_data_pid : pevent -> pevent_record -> Z;
  pevent_data_comm_from_pid : pevent -> Z -> string
}.

(** ** class Field *)

Module Field.
Section WithLib.
Context {L : PEventLib}.

Record t : Type := {
  _record : pevent_record;
  _field : format_field
}.

Definition __init__ (record : pevent_record) (field : format_field) : t :=
  {| _record := record; _field := field |}.

Definition __long__ : Py t Z :=
  self <- gets (fun s => s) ;;
  let '(ret_code, val) :=
    pevent_read_number_field (_field self)
                             (pevent_record_data_get (_record self)) in
  if negb (ret_code =? 0)
  then raise (FieldError "Not a number field")
  else ret val.

Definition __int__ : Py t Z := __long__.

Definition __str__ : Py t string :=
  fun self => (py_field_get_str (_field self) (_record self), self, []).

End WithLib.
End Field.

(** ** class Event *)

Module Event.
Section WithLib.
Context {L : PEventLib}.

Record t : Type := {
  _pevent : pevent;
  _record : pevent_record;
  _format : event_format;
  type : Z;
  cpu : Z;
  ts : Z;
  name : string;
  _comm : option string;
  _pid : option Z
}.

Definition __init__ (pevent0 : pevent) (record : pevent_record)
    (format : event_format) (type0 : Z) : t :=
  {| _pevent := pevent0;
     _record := record;
     _format := format;
     type := type0;
     cpu := pevent_record_cpu_get record;
     ts := pevent_record_ts_get record;
     name := event_format_name_get format;
     _comm := None;
     _pid := None |}.

Definition set__comm (v : option string) (self : t) : t :=
  {| _pevent := _pevent self; _record := _record self;
     _format := _format self; type := type self; cpu := cpu self;
     ts := ts self; name := name self; _comm := v; _pid := _pid self |}.

Definition set__pid (v : option Z) (self : t) : t :=
  {| _pevent := _pevent self; _record := _record self;
     _format := _format self; type := type self; cpu := cpu self;
     ts := ts self; name := name self; _comm := _comm self; _pid := v |}.

Definition __getitem__ (n : string) : Py t Field.t :=
  self <- gets (fun s => s) ;;
  match pevent_find_field (_format self) n with
  | None => raise (KeyError ("no field '" ++ n ++ "'")%string)
  | Some f => ret (Field.__init__ (_record self) f)
  end.

Definition pid : Py t Z :=
  cached <- gets _pid ;;
  match cached with
  | Some v => ret v
  | None =>
      self <- gets (fun s => s) ;;
      traced pevent_data_pid_call ;;
      let v := pevent_data_pid (_pevent self) (_record self) in
      modify (set__pid (Some v)) ;;
      ret v
  end.

Definition comm : Py t string :=
  cached <- gets _comm ;;
  match cached with
  | Some c => ret c
  | None =>
      p <- pid ;;
      self <- gets (fun s => s) ;;
      traced (pevent_data_comm_from_pid_call p) ;;
      let c := pevent_data_comm_from_pid (_pevent self) p in
      modify (set__comm (Some c)) ;;
      ret c
  end.

Definition num_field (n : string) : Py t (option Z) :=
  self <- gets (fun s => s) ;;
  match pevent_find_any_field (_format self) n with
  | None => ret None
  | Some f =>
      let '(ret_code, val) :=
        pevent_read_number_field f (pevent_record_data_get (_record self)) in
      if negb (ret_code =? 0) then ret None else ret (Some val)
  end.

Definition str_field (n : string) : Py t (option string) :=
  self <- gets (fun s => s) ;;
  match pevent_find_any_field (_format self) n with
  | None => ret None
  | Some f =>
      fun s => (result_map Some (py_field_get_str f (_record self)), s, [])
  end.

(** The format ["%d.%d CPU%d %s: pid=%d comm=%s type=%d"] applied to its
    seven operands. *)
Definition format_line (secs nsecs cpu0 : Z) (name0 : string) (pid0 : Z)
    (comm0 : string) (type0 : Z) : string :=
  (py_str_of_int secs ++ "." ++ py_str_of_int nsecs
   ++ " CPU" ++ py_str_of_int cpu0 ++ " " ++ name0
   ++ ": pid=" ++ py_str_of_int pid0 ++ " comm=" ++ comm0
   ++ " type=" ++ py_str_of_int type0)%string.

(** [__str__]: the operands of [%] are evaluated left to right, then the
    line is formatted; [%d] of None is a TypeError. *)
Definition __str__ : PyX t string :=
  (self <- liftx (gets (fun s => s)) ;;
   let secs := ts self / 1000000000 in
   let nsecs := ts self mod 1000000000 in
   let cpu0 := cpu self in
   let name0 := name self in
   common_pid <- liftx (num_field "common_pid") ;;
   comm0 <- liftx comm ;;
   type0 <- liftx (gets type) ;;
   match common_pid with
   | None =>
       raisex (TypeError "%d format: a number is required, not NoneType")
   | Some p => retx (format_line secs nsecs cpu0 name0 p comm0 type0)
   end)%pyx.

End WithLib.
End Event.

(** ** A caller's accesses to one Event *)

Module View.
Section WithLib.
Context {L : PEventLib}.

Inductive access : Type :=
| get_pid
| get_comm
| get_item (n : string)
| get_num_field (n : string)
| get_str_field (n : string).

(** What an access gives back. *)
Inductive value : Type :=
| v_int (z : Z)
| v_str (s : string)
| v_none
| v_field (f : Field.t).

Definition of_option {A : Type} (f : A -> value) (o : option A) : value :=
  match o with
  | Some a => f a
  | None => v_none
  end.

Definition lift {A : Type} (f : A -> value) (m : Py Event.t A)
    : Py Event.t value :=
  fun self => let '(r, self', l) := m self in (result_map f r, self', l).

Definition perform (a : access) : Py Event.t value :=
  match a with
  | get_pid => lift v_int Event.pid
  | get_comm => lift v_str Event.comm
  | get_item n => lift v_field (Event.__getitem__ n)
  | get_num_field n => lift (of_option v_int) (Event.num_field n)
  | get_str_field n => lift (of_option v_str) (Event.str_field n)
  end.

(** A run of accesses on the same Event; the caller goes on after an
    access that raised. *)
Fixpoint perform_all (l : list access) (self : Event.t)
    : list (result value) * Event.t * list native_call :=
  match l with
  | [] => ([], self, [])
  | a :: l' =>
      let '(r, self1, c1) := perform a self in
      let '(rs, self2, c2) := perform_all l' self1 in
      (r :: rs, self2, c1 ++ c2)
  end.

End WithLib.
End View.

(** ** cached_property *)

Module CachedProperty.
Section Decorator.

(** The attributes of the decorated class, the values its cached
    properties hold, and the name of the class (for the message of an
    AttributeError). *)
Variables (S V : Type) (class_name : string).

(** An instance: its own attributes and the attribute
    [__cached_properties], absent until the first read of a cached
    property. *)
Record object : Type := {
  attrs : S;
  __cached_properties : option (list (string * V))
}.

Definition set_cache (c : option (list (string * V))) (self : object)
    : object :=
  {| attrs := attrs self; __cached_properties := c |}.

(** The dict operations the decorator uses: [d[name]], [d.pop(name, None)]
    and [d[name] = value]. *)
Definition dict_get (name : string) (d : list (string * V)) : option V :=
  option_map snd (find (fun kv => String.eqb (fst kv) name) d).

Definition dict_pop (name : string) (d : list (string * V))
    : list (string * V) :=
  filter (fun kv => negb (String.eqb (fst kv) name)) d.

Definition dict_set (name : string) (value : V) (d : list (string * V))
    : list (string * V) :=
  (name, value) :: dict_pop name d.

Definition no_attribute : py_exception :=
  AttributeError ("'" ++ class_name
                  ++ "' object has no attribute '__cached_properties'")%string.

(** [self.__cached_properties[name] = value]. *)
Definition _store (name : string) (value : V) : PyX object unit :=
  fun self =>
    match __cached_properties self with
    | Some d => (Returned tt, set_cache (Some (dict_set name value d)) self, [])
    | None => (Raised no_attribute, self, [])
    end.

(** The part of [_get] after the [try]: compute, store, return. *)
Definition _compute (func : PyX object V) (name : string) : PyX object V :=
  (value <- func ;;
   _store name value ;;
   retx value)%pyx.

Definition _get (func : PyX object V) (name : string) : PyX object V :=
  fun self =>
    match __cached_properties self with
    | Some d =>
        match dict_get name d with
        | Some v => (Returned v, self, [])
        | None => _compute func name self
        end
    | None => _compute func name (set_cache (Some []) self)
    end.

Definition _del (name : string) : PyX object unit :=
  fun self =>
    match __cached_properties self with
    | Some d => (Returned tt, set_cache (Some (dict_pop name d)) self, [])
    | None => (Raised no_attribute, self, [])
    end.

End Decorator.
End CachedProperty.

(** ** class PEvent *)

Module PEvent.
Section WithLib.
Context {L : PEventLib}.

(** [pevent_is_file_bigendian] of the native library. *)
Variable pevent_is_file_bigendian : pevent -> Z.

Record t : Type := {
  _pevent : pevent
}.

Definition instance : Type := CachedProperty.object t string.

Definition __init__ (pevent0 : pevent) : instance :=
  {| CachedProperty.attrs := {| _pevent := pevent0 |};
     CachedProperty.__cached_properties := None |}.

(** The body of [file_endian]. *)
Definition file_endian_body : PyX instance string :=
  fun self =>
    (Returned (if negb (pevent_is_file_bigendian
                          (_pevent (CachedProperty.attrs self)) =? 0)
               then ">" else "<"),
     self, []).

Definition file_endian : PyX instance string :=
  CachedProperty._get "PEvent" file_endian_body "file_endian".

Definition del_file_endian : PyX instance unit :=
  CachedProperty._del "PEvent" "file_endian".

End WithLib.
End PEvent.

(** ** The record store and the opening of a capture *)

Section RecordStore.
Context {L : PEventLib}.

(** Modelled from the spec: the capture file read by the native library,
    which is not part of [tracecmd.py].  A capture holds the header with the
    format catalog, and the per-CPU regions of raw records in their on-disk
    order; a section that cannot be parsed is [None]. *)
Record capture : Type := {
  cap_catalog : option pevent;
  cap_cpu_data : option (list (list pevent_record))
}.

(** Modelled from the spec: the capture handle of the native library, with
    the parsed catalog and one cursor per CPU (the index of the next record
    of that CPU's stream). *)
Record handle : Type := {
  h_file : capture;
  h_pevent : pevent;
  h_cursors : list nat
}.

Definition h_streams (h : handle) : list (list pevent_record) :=
  match cap_cpu_data (h_file h) with
  | Some ss => ss
  | None => []
  end.

Definition cpu_stream (h : handle) (cpu : Z) : list pevent_record :=
  if cpu <? 0 then [] else nth (Z.to_nat cpu) (h_streams h) [].

Definition cpu_cursor (h : handle) (cpu : Z) : nat :=
  if cpu <? 0 then 0%nat else nth (Z.to_nat cpu) (h_cursors h) 0%nat.

Fixpoint list_set {A : Type} (l : list A) (i : nat) (v : A) : list A :=
  match l, i with
  | [], _ => []
  | _ :: r, O => v :: r
  | x :: r, S j => x :: list_set r j v
  end.

Definition set_cursor (h : handle) (cpu : Z) (n : nat) : handle :=
  if cpu <? 0 then h
  else {| h_file := h_file h; h_pevent := h_pevent h;
          h_cursors := list_set (h_cursors h) (Z.to_nat cpu) n |}.

(** Modelled from the spec: opening (section 4.5).  [tracecmd_alloc] opens
    the file, [tracecmd_read_headers] parses the header and the format
    catalog, [tracecmd_init_data] sets up the per-CPU cursors; the last two
    give a nonzero code when their section cannot be parsed. *)
Definition tracecmd_alloc (file : capture) : handle :=
  {| h_file := file; h_pevent := pevent_alloc; h_cursors := [] |}.

Definition tracecmd_read_headers (h : handle) : Z * handle :=
  match cap_catalog (h_file h) with
  | Some p => (0, {| h_file := h_file h; h_pevent := p;
                     h_cursors := h_cursors h |})
  | None => (-1, h)
  end.

Definition tracecmd_init_data (h : handle) : Z * handle :=
  match cap_cpu_data (h_file h) with
  | Some ss => (0, {| h_file := h_file h; h_pevent := h_pevent h;
                      h_cursors := repeat 0%nat (List.length ss) |})
  | None => (-1, h)
  end.

Definition tracecmd_cpus (h : handle) : Z :=
  Z.of_nat (List.length (h_streams h)).

Definition tracecmd_get_pevent (h : handle) : pevent := h_pevent h.

(** Modelled from the spec: the Record Store (section 4.3).  [read_next]
    gives the record under the cursor and advances it, or nothing at the end
    of the stream; [seek_to_timestamp] moves the cursor to the first record
    whose timestamp is at least the given one; [first] and [last] leave the
    cursor alone. *)
Definition tracecmd_read_data (h : handle) (cpu : Z)
    : option pevent_record * handle :=
  match nth_error (cpu_stream h cpu) (cpu_cursor h cpu) with
  | Some r => (Some r, set_cursor h cpu (S (cpu_cursor h cpu)))
  | None => (None, h)
  end.

Fixpoint seek_index (t : Z) (s : list pevent_record) : nat :=
  match s with
  | [] => 0%nat
  | r :: s' => if t <=? rec_ts r then 0%nat else S (seek_index t s')
  end.

Definition tracecmd_set_cpu_to_timestamp (h : handle) (cpu t : Z) : handle :=
  set_cursor h cpu (seek_index t (cpu_stream h cpu)).

Definition tracecmd_set_all_cpus_to_timestamp (h : handle) (t : Z) : handle :=
  {| h_file := h_file h; h_pevent := h_pevent h;
     h_cursors := map (seek_index t) (h_streams h) |}.

Definition tracecmd_read_cpu_first (h : handle) (cpu : Z)
    : option pevent_record :=
  hd_error (cpu_stream h cpu).

Definition tracecmd_read_cpu_last (h : handle) (cpu : Z)
    : option pevent_record :=
  hd_error (rev (cpu_stream h cpu)).

End RecordStore.

(** ** class Trace *)

Module Trace.
Section WithLib.
Context {L : PEventLib}.

Record t : Type := {
  _handle : handle;
  cpus : Z;
  _pevent : pevent;
  _start_time : option (list Z);
  _end_time : option (list Z)
}.

Definition set__handle (h : handle) (self : t) : t :=
  {| _handle := h; cpus := cpus self; _pevent := _pevent self;
     _start_time := _start_time self; _end_time := _end_time self |}.

Definition set__start_time (v : option (list Z)) (self : t) : t :=
  {| _handle := _handle self; cpus := cpus self; _pevent := _pevent self;
     _start_time := v; _end_time := _end_time self |}.

Definition set__end_time (v : option (list Z)) (self : t) : t :=
  {| _handle := _handle self; cpus := cpus self; _pevent := _pevent self;
     _start_time := _start_time self; _end_time := v |}.

(** The constructor: [filename] is the capture found under that name. *)
Definition __init__ (filename : capture) : result t :=
  let h := tracecmd_alloc filename in
  let '(rc, h) := tracecmd_read_headers h in
  if negb (rc =? 0) then Raise (FileFormatError "Invalid headers") else
  let '(rc, h) := tracecmd_init_data h in
  if negb (rc =? 0) then Raise (FileFormatError "Failed to init data") else
  Return {| _handle := h;
            cpus := tracecmd_cpus h;
            _pevent := tracecmd_get_pevent h;
            _start_time := None;
            _end_time := None |}.

(** The list held by a timestamp slot ([[]] while the slot is [None]). *)
Definition table (slot : option (list Z)) : list Z :=
  match slot with
  | Some l => l
  | None => []
  end.

(** [self._start_time.append(v)] and [self._end_time.append(v)]. *)
Definition _start_time_append (v : Z) (self : t) : t :=
  set__start_time (Some (table (_start_time self) ++ [v])) self.

Definition _end_time_append (v : Z) (self : t) : t :=
  set__end_time (Some (table (_end_time self) ++ [v])) self.

Definition read_cpu_first (cpu : Z) : Py t (option pevent_record) :=
  traced (tracecmd_read_cpu_first_call cpu) ;;
  gets (fun self => tracecmd_read_cpu_first (_handle self) cpu).

Definition read_cpu_last (cpu : Z) : Py t (option pevent_record) :=
  traced (tracecmd_read_cpu_last_call cpu) ;;
  gets (fun self => tracecmd_read_cpu_last (_handle self) cpu).

Definition ts_or_zero (rec : option pevent_record) : Z :=
  match rec with
  | Some r => pevent_record_ts_get r
  | None => 0
  end.

(** The [for cpu in range(0, self.cpus)] loop of [start_time].  The loop
    variable is the method's own parameter [cpu]: the loop gives back the
    value [cpu] is bound to when it ends. *)
Fixpoint start_time_for (cs : list Z) (cpu : Z) : Py t Z :=
  match cs with
  | [] => ret cpu
  | c :: cs' =>
      let cpu := c in
      rec <- read_cpu_first cpu ;;
      modify (_start_time_append (ts_or_zero rec)) ;;
      start_time_for cs' cpu
  end.

Definition start_time (cpu : Z) : Py t Z :=
  slot <- gets _start_time ;;
  cpu <- match slot with
         | None =>
             modify (set__start_time (Some [])) ;;
             n <- gets cpus ;;
             cpu <- start_time_for (py_range n) cpu ;;
             tbl <- gets (fun self => table (_start_time self)) ;;
             match py_min (filter (fun v => v >? 0) tbl) with
             | None => raise (ValueError "min() arg is an empty sequence")
             | Some ts => modify (_start_time_append ts) ;; ret cpu
             end
         | Some _ => ret cpu
         end ;;
  tbl <- gets (fun self => table (_start_time self)) ;;
  fun self => (py_index tbl cpu, self, []).

Fixpoint end_time_for (cs : list Z) (cpu : Z) : Py t Z :=
  match cs with
  | [] => ret cpu
  | c :: cs' =>
      let cpu := c in
      rec <- read_cpu_last cpu ;;
      modify (_end_time_append (ts_or_zero rec)) ;;
      end_time_for cs' cpu
  end.

Definition end_time (cpu : Z) : Py t Z :=
  slot <- gets _end_time ;;
  cpu <- match slot with
         | None =>
             modify (set__end_time (Some [])) ;;
             n <- gets cpus ;;
             cpu <- end_time_for (py_range n) cpu ;;
             tbl <- gets (fun self => table (_end_time self)) ;;
             match py_max (filter (fun v => v >? 0) tbl) with
             | None => raise (ValueError "max() arg is an empty sequence")
             | Some ts => modify (_end_time_append ts) ;; ret cpu
             end
         | Some _ => ret cpu
         end ;;
  tbl <- gets (fun self => table (_end_time self)) ;;
  fun self => (py_index tbl cpu, self, []).

(** The attribute reads [t.start_time] and [t.end_time]: a property getter
    is called with [self] alone, so [cpu] has its default. *)
Definition start_time_property : Py t Z := start_time (-1).
Definition end_time_property : Py t Z := end_time (-1).

Definition record_to_event (record : option pevent_record)
    : Py t (option Event.t) :=
  match record with
  | Some rec =>
      self <- gets (fun s => s) ;;
      let type := pevent_data_type (_pevent self) rec in
      let format := pevent_data_event_from_type (_pevent self) type in
      match format with
      | Some fmt =>
          if negb (type =? 0)
          then ret (Some (Event.__init__ (_pevent self) rec fmt type))
          else ret None
      | None => ret None
      end
  | None => ret None
  end.

Definition read_data (cpu : Z) : Py t (option pevent_record) :=
  traced (tracecmd_read_data_call cpu) ;;
  fun self =>
    let '(rec, h) := tracecmd_read_data (_handle self) cpu in
    (Return rec, set__handle h self, []).

Definition read_event (cpu : Z) : Py t (option Event.t) :=
  rec <- read_data cpu ;;
  record_to_event rec.

Definition rewind (cpu start_time : Z) : Py t unit :=
  n <- gets cpus ;;
  if existsb (Z.eqb cpu) (py_range n)
  then
    traced (tracecmd_set_cpu_to_timestamp_call cpu start_time) ;;
    modify (fun self =>
      set__handle (tracecmd_set_cpu_to_timestamp (_handle self) cpu start_time)
                  self)
  else
    traced (tracecmd_set_all_cpus_to_timestamp_call start_time) ;;
    modify (fun self =>
      set__handle (tracecmd_set_all_cpus_to_timestamp (_handle self) start_time)
                  self).

(** The [while True] loop of [events], run until it breaks: the events it
    yields, in order.  [None] when [fuel] iterations were not enough. *)
Fixpoint events_while (fuel : nat) (cpu end_time : Z)
    : Py t (option (list Event.t)) :=
  match fuel with
  | O => ret None
  | S fuel' =>
      event <- read_event cpu ;;
      match event with
      | None => ret (Some [])
      | Some e =>
          if (end_time >? 0) && (Event.ts e >? end_time)
          then ret (Some [])
          else
            rest <- events_while fuel' cpu end_time ;;
            ret (option_map (cons e) rest)
      end
  end.

Definition append_yields {A : Type} (a b : option (list A)) : option (list A) :=
  match a, b with
  | Some x, Some y => Some (x ++ y)
  | _, _ => None
  end.

Fixpoint events_for (fuel : nat) (cs : list Z)
    (target_cpu start_time end_time : Z) : Py t (option (list Event.t)) :=
  match cs with
  | [] => ret (Some [])
  | cpu :: cs' =>
      here <- (if (target_cpu =? cpu) || (target_cpu =? -1)
               then rewind cpu start_time ;; events_while fuel cpu end_time
               else ret (Some [])) ;;
      rest <- events_for fuel cs' target_cpu start_time end_time ;;
      ret (append_yields here rest)
  end.

(** The generator [events], consumed to its end with nothing else touching
    the session meanwhile: all the events it yields, in order. *)
Definition events (fuel : nat) (cpu start_time end_time : Z)
    : Py t (option (list Event.t)) :=
  let target_cpu := cpu in
  n <- gets cpus ;;
  events_for fuel (py_range n) target_cpu start_time end_time.

Fixpoint records_while (fuel : nat) (cpu end_time : Z)
    : Py t (option (list pevent_record)) :=
  match fuel with
  | O => ret None
  | S fuel' =>
      record <- read_data cpu ;;
      match record with
      | None => ret (Some [])
      | Some r =>
          let ts := pevent_record_ts_get r in
          if (end_time >? 0) && (ts >? end_time)
          then ret (Some [])
          else
            rest <- records_while fuel' cpu end_time ;;
            ret (option_map (cons r) rest)
      end
  end.

Fixpoint records_for (fuel : nat) (cs : list Z)
    (target_cpu start_time end_time : Z)
    : Py t (option (list pevent_record)) :=
  match cs with
  | [] => ret (Some [])
  | cpu :: cs' =>
      here <- (if (target_cpu =? cpu) || (target_cpu =? -1)
               then rewind cpu start_time ;; records_while fuel cpu end_time
               else ret (Some [])) ;;
      rest <- records_for fuel cs' target_cpu start_time end_time ;;
      ret (append_yields here rest)
  end.

Definition records (fuel : nat) (cpu start_time end_time : Z)
    : Py t (option (list pevent_record)) :=
  let target_cpu := cpu in
  n <- gets cpus ;;
  records_for fuel (py_range n) target_cpu start_time end_time.

(** What [record_to_event] makes of a record that is there. *)
Definition bound_event (pe : pevent) (rec : pevent_record) : option Event.t :=
  let type := pevent_data_type pe rec in
  match pevent_data_event_from_type pe type with
  | Some fmt =>
      if negb (type =? 0) then Some (Event.__init__ pe rec fmt type) else None
  | None => None
  end.

(** The events of the records at the head of [rs], up to the first record
    that gives no Event or, when [end_time > 0], lies after [end_time]. *)
Fixpoint yielded (pe : pevent) (end_time : Z) (rs : list pevent_record)
    : list Event.t :=
  match rs with
  | [] => []
  | r :: rs' =>
      match bound_event pe r with
      | None => []
      | Some e =>
          if (end_time >? 0) && (rec_ts r >? end_time) then []
          else e :: yielded pe end_time rs'
      end
  end.

(** The records at the head of [rs] that are not after [end_time]. *)
Fixpoint within (end_time : Z) (rs : list pevent_record)
    : list pevent_record :=
  match rs with
  | [] => []
  | r :: rs' =>
      if (end_time >? 0) && (rec_ts r >? end_time) then []
      else r :: within end_time rs'
  end.

(** The part of a CPU's stream from the first record at or after
    [start_time]. *)
Definition from_timestamp (h : handle) (cpu start_time : Z)
    : list pevent_record :=
  skipn (seek_index start_time (cpu_stream h cpu)) (cpu_stream h cpu).

(** The CPUs a call with selector [target_cpu] visits, in visiting order. *)
Definition selected (n target_cpu : Z) : list Z :=
  filter (fun cpu => (target_cpu =? cpu) || (target_cpu =? -1)) (py_range n).

(** The per-CPU entries of the two timestamp tables: the timestamp of each
    CPU's first (last) record, 0 for a CPU without records. *)
Definition first_timestamps (self : t) : list Z :=
  map (fun cpu => ts_or_zero (tracecmd_read_cpu_first (_handle self) cpu))
      (py_range (cpus self)).

Definition last_timestamps (self : t) : list Z :=
  map (fun cpu => ts_or_zero (tracecmd_read_cpu_last (_handle self) cpu))
      (py_range (cpus self)).

Definition positive (l : list Z) : list Z := filter (fun v => v >? 0) l.

(** The state [__init__] sets up and the methods keep: [cpus] is the number
    of per-CPU streams and every stream has its cursor. *)
Definition well_formed (self : t) : Prop :=
  cpus self = tracecmd_cpus (_handle self)
  /\ List.length (h_cursors (_handle self))
     = List.length (h_streams (_handle self)).

(** A session that differs from [self] in its cursors at most. *)
Definition same_capture (self self' : t) : Prop :=
  h_file (_handle self') = h_file (_handle self)
  /\ _pevent self' = _pevent self
  /\ cpus self' = cpus self
  /\ _start_time self' = _start_time self
  /\ _end_time self' = _end_time self
  /\ well_formed self'.

End WithLib.
End Trace.

(** ** An implementation of the schema and decoding half *)

Module SpecLib.

Inductive field_kind : Type :=
| FixedInt
| FixedString
| DynamicString.

(** Modelled from the spec: a Field Schema (section 3), the native
    [struct format_field], which is not part of [tracecmd.py]: name, byte
    offset within the payload, byte width, signedness and kind, together with
    the byte order of the file it was read from. *)
Record field_schema : Type := {
  fs_name : string;
  fs_offset : nat;
  fs_width : nat;
  fs_signed : bool;
  fs_kind : field_kind;
  fs_bigendian : bool
}.

(** Modelled from the spec: an Event Schema (section 3), the native
    [struct event_format]: declared name, numeric type-id and the ordered
    list of the fields of the payload. *)
Record event_schema : Type := {
  es_system : string;
  es_name : string;
  es_id : Z;
  es_bigendian : bool;
  es_fields : list field_schema
}.

(** Modelled from the spec: the Format Catalog with the session's
    pid-to-name table (sections 4.1 and 6), the native [struct pevent]. *)
Record catalog : Type := {
  cat_bigendian : bool;
  cat_events : list event_schema;
  cat_cmdlines : list (Z * string)
}.

Fixpoint le_uint (bs : list byte) : Z :=
  match bs with
  | [] => 0
  | b :: r => Z.of_N (Byte.to_N b) + 256 * le_uint r
  end.

Definition uint_of_bytes (big : bool) (bs : list byte) : Z :=
  le_uint (if big then rev bs else bs).

Definition sint_of_bytes (big : bool) (bs : list byte) : Z :=
  let v := uint_of_bytes big bs in
  let w := 8 * Z.of_nat (List.length bs) in
  if v <? 2 ^ (w - 1) then v else v - 2 ^ w.

Definition slice (off len : nat) (payload : list byte) : result (list byte) :=
  if (off + len <=? List.length payload)%nat
  then Return (firstn len (skipn off payload))
  else Raise (DecodeError Truncated).

Fixpoint until_null (bs : list byte) : list byte :=
  match bs with
  | [] => []
  | b :: r => if Byte.eqb b x00 then [] else b :: until_null r
  end.

(** Text is taken to be 7-bit: a byte above 127 is an invalid encoding. *)
Definition text_of_bytes (bs : list byte) : result string :=
  if forallb (fun b => N.ltb (Byte.to_N b) 128) bs
  then Return (string_of_list_byte bs)
  else Raise (DecodeError InvalidText).

(** Modelled from the spec: the Field Decoder (section 4.2), which is not
    part of [tracecmd.py].  An integer is [fs_width] bytes at [fs_offset],
    signed or unsigned, in the file's byte order, and fails when it reaches
    past the payload. *)
Definition decode_int (f : field_schema) (payload : list byte) : result Z :=
  match slice (fs_offset f) (fs_width f) payload with
  | Return bs =>
      Return (if fs_signed f
              then sint_of_bytes (fs_bigendian f) bs
              else uint_of_bytes (fs_bigendian f) bs)
  | Raise e => Raise e
  end.

(** Modelled from the spec: a fixed-length string of the Field Decoder is
    the bytes at [fs_offset], up to the first null or to [fs_width]. *)
Definition decode_fixed_string (f : field_schema) (payload : list byte)
    : result string :=
  match slice (fs_offset f) (fs_width f) payload with
  | Return bs => text_of_bytes (until_null bs)
  | Raise e => Raise e
  end.

(** Modelled from the spec: a dynamic string of the Field Decoder.  The
    field itself is a 4-byte unsigned descriptor of an (offset, length) pair
    relative to the record start, the offset in its low 16 bits and the
    length in its high 16 bits; the text is that slice of the payload, and
    the decode fails when the slice is out of bounds. *)
Definition decode_dynamic_string (f : field_schema) (payload : list byte)
    : result string :=
  match slice (fs_offset f) 4 payload with
  | Return d =>
      let v := uint_of_bytes (fs_bigendian f) d in
      match slice (Z.to_nat (v mod 65536)) (Z.to_nat (v / 65536)) payload with
      | Return bs => text_of_bytes bs
      | Raise e => Raise e
      end
  | Raise e => Raise e
  end.

Definition is_string_kind (f : field_schema) : bool :=
  match fs_kind f with
  | FixedInt => false
  | FixedString | DynamicString => true
  end.

(** Modelled from the spec: the numeric read of the Field Decoder as the
    wrapper sees it, a return code and a value.  The code is nonzero on a
    string-kind field and when the integer decode fails. *)
Definition read_number_field (f : field_schema) (payload : list byte) : Z * Z :=
  if is_string_kind f then (-1, 0)
  else match decode_int f payload with
       | Return v => (0, v)
       | Raise _ => (-1, 0)
       end.

Definition field_get_str (f : field_schema) (r : pevent_record) : result string :=
  match fs_kind f with
  | DynamicString => decode_dynamic_string f (rec_data r)
  | FixedString | FixedInt => decode_fixed_string f (rec_data r)
  end.

(** Modelled from the spec: the common header every event starts with
    (sections 4.4 and 6), laid out as ftrace does: the type-id in bytes 0-1
    and the process id in bytes 4-7. *)
Definition common_type (big : bool) : field_schema :=
  {| fs_name := "common_type"; fs_offset := 0; fs_width := 2;
     fs_signed := false; fs_kind := FixedInt; fs_bigendian := big |}.

Definition common_pid (big : bool) : field_schema :=
  {| fs_name := "common_pid"; fs_offset := 4; fs_width := 4;
     fs_signed := true; fs_kind := FixedInt; fs_bigendian := big |}.

Definition common_fields (big : bool) : list field_schema :=
  [common_type big; common_pid big].

Definition find_by_name (n : string) (fs : list field_schema)
    : option field_schema :=
  find (fun f => String.eqb (fs_name f) n) fs.

(** Modelled from the spec: the lookup of a Field Schema by name within an
    Event Schema (section 4.4).  [find_field] searches the fields the event
    declares, [find_any_field] the common header first. *)
Definition find_field (e : event_schema) (n : string) : option field_schema :=
  find_by_name n (es_fields e).

Definition find_any_field (e : event_schema) (n : string)
    : option field_schema :=
  find_by_name n (common_fields (es_bigendian e) ++ es_fields e).

Definition data_type (c : catalog) (r : pevent_record) : Z :=
  match decode_int (common_type (cat_bigendian c)) (rec_data r) with
  | Return v => v
  | Raise _ => 0
  end.

Definition data_pid (c : catalog) (r : pevent_record) : Z :=
  match decode_int (common_pid (cat_bigendian c)) (rec_data r) with
  | Return v => v
  | Raise _ => -1
  end.

(** Modelled from the spec: [by_type_id] of the Format Catalog
    (section 4.1). *)
Definition event_from_type (c : catalog) (id : Z) : option event_schema :=
  find (fun e => es_id e =? id) (cat_events c).

(** Modelled from the spec: the pid-to-name table (section 6); an absent
    entry resolves to the "unknown" sentinel. *)
Definition comm_from_pid (c : catalog) (pid : Z) : string :=
  match find (fun kv => fst kv =? pid) (cat_cmdlines c) with
  | Some kv => snd kv
  | None => "<...>"
  end.

Definition empty_catalog : catalog :=
  {| cat_bigendian := false; cat_events := []; cat_cmdlines := [] |}.

#[export] Instance lib : PEventLib := {|
  pevent := catalog;
  event_format := event_schema;
  format_field := field_schema;
  pevent_alloc := empty_catalog;
  event_format_name_get := es_name;
  pevent_find_field := find_field;
  pevent_find_any_field := find_any_field;
  pevent_read_number_field := read_number_field;
  py_field_get_str := field_get_str;
  pevent_data_type := data_type;
  pevent_data_event_from_type := event_from_type;
  pevent_data_pid := data_pid;
  pevent_data_comm_from_pid := comm_from_pid
|}.

End SpecLib.

(** ** Sample captures *)

Module Sample.
Import SpecLib.

Definition bytes (l : list Z) : list byte :=
  map (fun n => match Byte.of_N (Z.to_N n) with Some b => b | None => x00 end) l.

Definition f_comm : field_schema :=
  {| fs_name := "comm"; fs_offset := 8; fs_width := 8; fs_signed := false;
     fs_kind := FixedString; fs_bigendian := false |}.

Definition f_prio : field_schema :=
  {| fs_name := "prio"; fs_offset := 16; fs_width := 4; fs_signed := true;
     fs_kind := FixedInt; fs_bigendian := false |}.

Definition f_msg : field_schema :=
  {| fs_name := "msg"; fs_offset := 20; fs_width := 4; fs_signed := false;
     fs_kind := DynamicString; fs_bigendian := false |}.

Definition sched_wakeup : event_schema :=
  {| es_system := "sched"; es_name := "sched_wakeup"; es_id := 1;
     es_bigendian := false; es_fields := [f_comm; f_prio; f_msg] |}.

Definition cat : catalog :=
  {| cat_bigendian := false; cat_events := [sched_wakeup];
     cat_cmdlines := [(42, "bash")] |}.

(** A payload: the common header (type-id, flags, pid), then [comm] =
    "bash", [prio] = 120 and [msg], a descriptor of [len] bytes at offset 24,
    where the three bytes "abc" are. *)
Definition payload (type_id len : Z) : list byte :=
  bytes [type_id; 0; 0; 0;  42; 0; 0; 0;
         98; 97; 115; 104; 0; 0; 0; 0;
         120; 0; 0; 0;
         24; 0; len; 0;
         97; 98; 99].

Definition rec (cpu ts type_id : Z) : pevent_record :=
  {| rec_ts := ts; rec_cpu := cpu; rec_data := payload type_id 3 |}.

(** A record whose dynamic string claims nine bytes where three are left. *)
Definition rec_short : pevent_record :=
  {| rec_ts := 100; rec_cpu := 0; rec_data := payload 1 9 |}.

Definition open (streams : list (list pevent_record)) : capture :=
  {| cap_catalog := Some cat; cap_cpu_data := Some streams |}.

(** The capture of the spec's scenario: CPU0 has records at 100, 200 and
    300, CPU1 at 150 and 250. *)
Definition two_cpus : capture :=
  open [[rec 0 100 1; rec 0 200 1; rec 0 300 1];
        [rec 1 150 1; rec 1 250 1]].

(** The same capture, but the record at 200 has a type-id (99) that the
    catalog does not know. *)
Definition with_unknown : capture :=
  open [[rec 0 100 1; rec 0 200 99; rec 0 300 1];
        [rec 1 150 1; rec 1 250 1]].

Definition all_empty : capture := open [[]; []].

Definition bad_header : capture :=
  {| cap_catalog := None; cap_cpu_data := Some [[rec 0 100 1]] |}.

(** The session on a capture that opens. *)
Definition session (file : capture) : Trace.t :=
  match Trace.__init__ file with
  | Return t => t
  | Raise _ =>
      {| Trace._handle := tracecmd_alloc file; Trace.cpus := 0;
         Trace._pevent := empty_catalog;
         Trace._start_time := None; Trace._end_time := None |}
  end.

Definition event (r : pevent_record) : Event.t :=
  Event.__init__ cat r sched_wakeup 1.

(** A record cut after its type-id: the common header has no room for the
    process id. *)
Definition rec_tiny : pevent_record :=
  {| rec_ts := 1234567890123; rec_cpu := 3; rec_data := bytes [1; 0] |}.

(** A record at 1234.567890123 seconds on CPU 3. *)
Definition rec_late : pevent_record :=
  {| rec_ts := 1234567890123; rec_cpu := 3; rec_data := payload 1 3 |}.

(** A catalog that has a schema for type-id 0, and a capture with it. *)
Definition zero_event : event_schema :=
  {| es_system := "ftrace"; es_name := "padding"; es_id := 0;
     es_bigendian := false; es_fields := [] |}.

Definition cat_zero : catalog :=
  {| cat_bigendian := false; cat_events := [zero_event; sched_wakeup];
     cat_cmdlines := [(42, "bash")] |}.

Definition with_zero : capture :=
  {| cap_catalog := Some cat_zero;
     cap_cpu_data := Some [[rec 0 100 0; rec 0 200 1]] |}.

End Sample.

(** * Properties *)

Ltac py_unfold :=
  cbv beta iota zeta delta [bind ret raise gets modify traced].

(** ** Field and Event *)

Section EventProperties.
Context {L : PEventLib}.

Lemma getitem_found (self : Event.t) (n : string) (f : format_field) :
  pevent_find_field (Event._format self) n = Some f ->
  Event.__getitem__ n self
  = (Return (Field.__init__ (Event._record self) f), self, []).
Proof.
  intros H. unfold Event.__getitem__. py_unfold. rewrite H. reflexivity.
Qed.

(** C4, as amended: for a field name that the bound schema does not declare
    ([pevent_find_field] finds nothing), [Event.__getitem__] raises
    KeyError("no field '<name>'"), not FieldError; it makes no native call
    and leaves the Event as it was, so every later run of accesses on the
    Event gives what it would have given without the failed lookup. *)
Theorem getitem_missing_raises_KeyError (self : Event.t) (n : string) :
  pevent_find_field (Event._format self) n = None ->
  Event.__getitem__ n self
  = (Raise (KeyError ("no field '" ++ n ++ "'")%string), self, [])
  /\ forall later : list View.access,
       View.perform_all later (state_of (Event.__getitem__ n self))
       = View.perform_all later self.
Proof.
  intros H.
  assert (E : Event.__getitem__ n self
              = (Raise (KeyError ("no field '" ++ n ++ "'")%string), self, [])).
  { unfold Event.__getitem__. py_unfold. rewrite H. reflexivity. }
  split; [exact E|]. intros later. rewrite E. reflexivity.
Qed.

Lemma Field_long_fails (self : Field.t) :
  fst (pevent_read_number_field (Field._field self)
         (pevent_record_data_get (Field._record self))) <> 0 ->
  Field.__long__ self = (Raise (FieldError "Not a number field"), self, []).
Proof.
  intros H. unfold Field.__long__. py_unfold.
  destruct (pevent_read_number_field _ _) as [rc v]; simpl in *.
  apply Z.eqb_neq in H. rewrite H. reflexivity.
Qed.

(** C5: coercing a Field to an integer, through [__long__] or [__int__],
    when the numeric read of its field gives a nonzero return code (as it
    does on a string-kind field) raises FieldError("Not a number field"); it
    returns no value and leaves the Field as it was. *)
Theorem Field_long_raises_FieldError (self : Field.t) :
  fst (pevent_read_number_field (Field._field self)
         (pevent_record_data_get (Field._record self))) <> 0 ->
  Field.__long__ self = (Raise (FieldError "Not a number field"), self, [])
  /\ Field.__int__ self = (Raise (FieldError "Not a number field"), self, []).
Proof.
  intros H. unfold Field.__int__. split; apply Field_long_fails; exact H.
Qed.

Lemma pid_cached (self : Event.t) (p : Z) :
  Event._pid self = Some p -> Event.pid self = (Return p, self, []).
Proof.
  intros H. unfold Event.pid. py_unfold. rewrite H. reflexivity.
Qed.

Lemma comm_cached (self : Event.t) (c : string) :
  Event._comm self = Some c -> Event.comm self = (Return c, self, []).
Proof.
  intros H. unfold Event.comm. py_unfold. rewrite H. reflexivity.
Qed.

Lemma pid_fills_slot (self : Event.t) :
  exists p, value_of (Event.pid self) = Return p
            /\ Event._pid (state_of (Event.pid self)) = Some p
            /\ Event._comm (state_of (Event.pid self)) = Event._comm self.
Proof.
  unfold Event.pid. py_unfold.
  destruct (Event._pid self) as [p|] eqn:E; simpl.
  - exists p. auto.
  - eexists. repeat split.
Qed.

Lemma comm_fills_slot (self : Event.t) :
  exists c, value_of (Event.comm self) = Return c
            /\ Event._comm (state_of (Event.comm self)) = Some c
            /\ (forall p, Event._pid self = Some p ->
                  Event._pid (state_of (Event.comm self)) = Some p).
Proof.
  unfold Event.comm, Event.pid. py_unfold.
  destruct (Event._comm self) as [c|] eqn:E; simpl.
  - exists c. auto.
  - destruct (Event._pid self) as [p|] eqn:E'; simpl.
    + eexists. repeat split. intros q Hq. congruence.
    + eexists. repeat split. intros q Hq. discriminate.
Qed.

Lemma lookups_keep_state (self : Event.t) (n : string) :
  state_of (Event.__getitem__ n self) = self
  /\ state_of (Event.num_field n self) = self
  /\ state_of (Event.str_field n self) = self.
Proof.
  unfold Event.__getitem__, Event.num_field, Event.str_field. py_unfold.
  repeat split.
  - destruct (pevent_find_field _ _); reflexivity.
  - destruct (pevent_find_any_field _ _); [|reflexivity].
    destruct (pevent_read_number_field _ _) as [rc v].
    destruct (negb (rc =? 0)); reflexivity.
  - destruct (pevent_find_any_field _ _); reflexivity.
Qed.

Lemma state_of_lift {A : Type} (f : A -> View.value) (m : Py Event.t A)
    (self : Event.t) :
  state_of (View.lift f m self) = state_of (m self).
Proof.
  unfold View.lift. destruct (m self) as [[r s] l]. reflexivity.
Qed.

Lemma perform_keeps_pid (a : View.access) (self : Event.t) (p : Z) :
  Event._pid self = Some p ->
  Event._pid (state_of (View.perform a self)) = Some p.
Proof.
  intros H. destruct a; simpl; rewrite state_of_lift.
  - rewrite (pid_cached _ H). exact H.
  - destruct (comm_fills_slot self) as (c & _ & _ & K). auto.
  - destruct (lookups_keep_state self n) as (E & _ & _). rewrite E. exact H.
  - destruct (lookups_keep_state self n) as (_ & E & _). rewrite E. exact H.
  - destruct (lookups_keep_state self n) as (_ & _ & E). rewrite E. exact H.
Qed.

Lemma perform_keeps_comm (a : View.access) (self : Event.t) (c : string) :
  Event._comm self = Some c ->
  Event._comm (state_of (View.perform a self)) = Some c.
Proof.
  intros H. destruct a; simpl; rewrite state_of_lift.
  - destruct (pid_fills_slot self) as (p & _ & _ & K). congruence.
  - rewrite (comm_cached _ H). exact H.
  - destruct (lookups_keep_state self n) as (E & _ & _). rewrite E. exact H.
  - destruct (lookups_keep_state self n) as (_ & E & _). rewrite E. exact H.
  - destruct (lookups_keep_state self n) as (_ & _ & E). rewrite E. exact H.
Qed.

Lemma perform_all_keeps_slots (later : list View.access) (self : Event.t) :
  (forall p, Event._pid self = Some p ->
     Event._pid (state_of (View.perform_all later self)) = Some p)
  /\ (forall c, Event._comm self = Some c ->
        Event._comm (state_of (View.perform_all later self)) = Some c).
Proof.
  revert self. induction later as [|a later IH]; intros self.
  - split; intros; assumption.
  - simpl.
    pose proof (@perform_keeps_pid a self) as Kp.
    pose proof (@perform_keeps_comm a self) as Kc.
    destruct (View.perform a self) as [[r s1] c1]. unfold state_of in Kp, Kc.
    simpl in Kp, Kc.
    destruct (IH s1) as [Ip Ic].
    destruct (View.perform_all later s1) as [[rs s2] c2].
    unfold state_of in *. simpl in *. split; intros; auto.
Qed.

(** C8: [pid] and [comm] are resolved on first access and cached for the
    Event's lifetime.  A fresh Event holds neither; its first [pid] makes the
    one native call that decodes it and its first [comm] makes the one query
    of the pid-to-name table; and once an access to either has given a
    value, after any run of later accesses on the Event the same access
    gives that value again, with no native call and no change to the
    Event. *)
Theorem pid_comm_cached_for_lifetime :
  (forall (pe : pevent) (r : pevent_record) (f : event_format) (ty : Z),
     let fresh := Event.__init__ pe r f ty in
     Event._pid fresh = None /\ Event._comm fresh = None
     /\ value_of (Event.pid fresh) = Return (pevent_data_pid pe r)
     /\ calls_of (Event.pid fresh) = [pevent_data_pid_call]
     /\ value_of (Event.comm fresh)
        = Return (pevent_data_comm_from_pid pe (pevent_data_pid pe r))
     /\ calls_of (Event.comm fresh)
        = [pevent_data_pid_call;
           pevent_data_comm_from_pid_call (pevent_data_pid pe r)])
  /\ (forall (self : Event.t) (later : list View.access),
        let after := state_of (View.perform_all later
                                 (state_of (Event.pid self))) in
        Event.pid after = (value_of (Event.pid self), after, []))
  /\ (forall (self : Event.t) (later : list View.access),
        let after := state_of (View.perform_all later
                                 (state_of (Event.comm self))) in
        Event.comm after = (value_of (Event.comm self), after, [])).
Proof.
  split; [|split].
  - intros pe r f ty fresh. repeat split.
  - intros self later after.
    destruct (pid_fills_slot self) as (p & Hv & Hs & _).
    rewrite Hv. apply pid_cached.
    apply (proj1 (perform_all_keeps_slots later _)). exact Hs.
  - intros self later after.
    destruct (comm_fills_slot self) as (c & Hv & Hs & _).
    rewrite Hv. apply comm_cached.
    apply (proj2 (perform_all_keeps_slots later _)). exact Hs.
Qed.

(** C10, as amended: [num_field] never raises: it returns None when the
    schema has no field of that name and also when the numeric read of the
    field gives a nonzero return code, so its None does not tell the two
    apart, where [Field.__long__] on the same field raises FieldError.
    [str_field] returns None when the schema has no field of that name and
    raises nothing of its own; for a field that exists it gives what the
    native string decoder gives, an exception included.  Neither method
    changes the Event. *)
Theorem num_field_str_field_results (self : Event.t) (n : string) :
  (exists v, Event.num_field n self = (Return v, self, []))
  /\ (pevent_find_any_field (Event._format self) n = None ->
        Event.num_field n self = (Return None, self, [])
        /\ Event.str_field n self = (Return None, self, []))
  /\ (forall f,
        pevent_find_any_field (Event._format self) n = Some f ->
        fst (pevent_read_number_field f
               (pevent_record_data_get (Event._record self))) <> 0 ->
        Event.num_field n self = (Return None, self, [])
        /\ Field.__long__ (Field.__init__ (Event._record self) f)
           = (Raise (FieldError "Not a number field"),
              Field.__init__ (Event._record self) f, []))
  /\ (forall f,
        pevent_find_any_field (Event._format self) n = Some f ->
        fst (pevent_read_number_field f
               (pevent_record_data_get (Event._record self))) = 0 ->
        Event.num_field n self
        = (Return (Some (snd (pevent_read_number_field f
                                (pevent_record_data_get (Event._record self))))),
           self, []))
  /\ (forall f,
        pevent_find_any_field (Event._format self) n = Some f ->
        Event.str_field n self
        = (result_map Some (py_field_get_str f (Event._record self)),
           self, [])).
Proof.
  unfold Event.num_field, Event.str_field. py_unfold.
  split; [|split; [|split; [|split]]].
  - destruct (pevent_find_any_field _ _) as [f|]; [|eauto].
    destruct (pevent_read_number_field _ _) as [rc v].
    destruct (negb (rc =? 0)); eauto.
  - intros H. rewrite H. split; reflexivity.
  - intros f H H0. split.
    + rewrite H.
      destruct (pevent_read_number_field _ _) as [rc v]; simpl in *.
      apply Z.eqb_neq in H0. rewrite H0. reflexivity.
    + apply (Field_long_fails (Field.__init__ (Event._record self) f)).
      exact H0.
  - intros f H H0. rewrite H.
    destruct (pevent_read_number_field _ _) as [rc v]; simpl in *.
    subst rc. reflexivity.
  - intros f H. rewrite H. reflexivity.
Qed.

End EventProperties.

(** ** Trace: opening and binding records *)

Section TraceProperties.
Context {L : PEventLib}.

(** C6: [record_to_event] on a record whose type-id has no schema in the
    catalog returns None and does not raise; on a record whose type-id is
    nonzero and has a schema it returns the Event made of that record, that
    schema and that type-id.  Either way the session is left as it was. *)
Theorem record_to_event_none_or_bound (self : Trace.t) (rec : pevent_record) :
  let type := pevent_data_type (Trace._pevent self) rec in
  (pevent_data_event_from_type (Trace._pevent self) type = None ->
     Trace.record_to_event (Some rec) self = (Return None, self, []))
  /\ (forall fmt,
        type <> 0 ->
        pevent_data_event_from_type (Trace._pevent self) type = Some fmt ->
        exists e,
          Trace.record_to_event (Some rec) self = (Return (Some e), self, [])
          /\ e = Event.__init__ (Trace._pevent self) rec fmt type
          /\ Event._record e = rec /\ Event._format e = fmt
          /\ Event.type e = type).
Proof.
  intros type. unfold Trace.record_to_event. py_unfold. fold type. split.
  - intros H. rewrite H. reflexivity.
  - intros fmt Hty H. rewrite H. apply Z.eqb_neq in Hty. rewrite Hty. simpl.
    eexists. repeat split.
Qed.

Lemma record_to_event_bound_event (self : Trace.t) (rec : pevent_record) :
  Trace.record_to_event (Some rec) self
  = (Return (Trace.bound_event (Trace._pevent self) rec), self, []).
Proof.
  unfold Trace.record_to_event, Trace.bound_event. py_unfold.
  destruct (pevent_data_event_from_type _ _); [|reflexivity].
  destruct (negb _); reflexivity.
Qed.

(** C7: opening is all or nothing.  On a capture whose header and catalog
    cannot be parsed, [Trace.__init__] raises FileFormatError("Invalid
    headers"); when the per-CPU data cannot be set up it raises
    FileFormatError("Failed to init data"); otherwise it returns a session
    with [cpus] the number of CPU streams, the parsed catalog as [_pevent],
    a cursor at the start of every stream and both timestamp slots empty.
    There is no other outcome. *)
Theorem Trace_init_all_or_nothing (file : capture) :
  match cap_catalog file, cap_cpu_data file with
  | None, _ =>
      Trace.__init__ file = Raise (FileFormatError "Invalid headers")
  | Some _, None =>
      Trace.__init__ file = Raise (FileFormatError "Failed to init data")
  | Some pe, Some streams =>
      exists self,
        Trace.__init__ file = Return self
        /\ Trace.cpus self = Z.of_nat (List.length streams)
        /\ Trace._pevent self = pe
        /\ h_streams (Trace._handle self) = streams
        /\ h_cursors (Trace._handle self)
           = repeat 0%nat (List.length streams)
        /\ Trace._start_time self = None
        /\ Trace._end_time self = None
        /\ Trace.well_formed self
  end.
Proof.
  unfold Trace.__init__, tracecmd_read_headers, tracecmd_init_data,
    tracecmd_alloc, Trace.well_formed, tracecmd_cpus, h_streams.
  destruct file as [c d]. simpl.
  destruct c as [pe|]; [|reflexivity].
  destruct d as [streams|]; [|reflexivity].
  simpl. eexists. repeat split. simpl. apply repeat_length.
Qed.

End TraceProperties.

(** ** Trace: the cached timestamp tables *)

Section Timestamps.
Context {L : PEventLib}.

Lemma last_cons {A : Type} (c : A) (cs : list A) (d : A) :
  last (c :: cs) d = last cs c.
Proof.
  revert c d. induction cs as [|x cs IH]; intros c d; [reflexivity|].
  change (last (c :: x :: cs) d) with (last (x :: cs) d).
  rewrite !IH. reflexivity.
Qed.

Lemma start_time_for_spec (cs : list Z) (cpu : Z) (self : Trace.t)
    (tbl : list Z) :
  Trace._start_time self = Some tbl ->
  Trace.start_time_for cs cpu self
  = (Return (last cs cpu),
     Trace.set__start_time
       (Some (tbl ++ map (fun c => Trace.ts_or_zero
                                     (tracecmd_read_cpu_first
                                        (Trace._handle self) c)) cs)) self,
     map tracecmd_read_cpu_first_call cs).
Proof.
  revert cpu self tbl. induction cs as [|c cs IH]; intros cpu self tbl H.
  - simpl. unfold ret. rewrite app_nil_r. destruct self; simpl in *.
    subst. reflexivity.
  - cbn [Trace.start_time_for]. unfold Trace.read_cpu_first. py_unfold.
    rewrite (IH c (Trace._start_time_append _ self)
                (tbl ++ [Trace.ts_or_zero
                           (tracecmd_read_cpu_first (Trace._handle self) c)])).
    + rewrite last_cons. cbn [map app]. rewrite <- app_assoc. reflexivity.
    + unfold Trace._start_time_append. simpl. rewrite H. reflexivity.
Qed.

Lemma end_time_for_spec (cs : list Z) (cpu : Z) (self : Trace.t)
    (tbl : list Z) :
  Trace._end_time self = Some tbl ->
  Trace.end_time_for cs cpu self
  = (Return (last cs cpu),
     Trace.set__end_time
       (Some (tbl ++ map (fun c => Trace.ts_or_zero
                                     (tracecmd_read_cpu_last
                                        (Trace._handle self) c)) cs)) self,
     map tracecmd_read_cpu_last_call cs).
Proof.
  revert cpu self tbl. induction cs as [|c cs IH]; intros cpu self tbl H.
  - simpl. unfold ret. rewrite app_nil_r. destruct self; simpl in *.
    subst. reflexivity.
  - cbn [Trace.end_time_for]. unfold Trace.read_cpu_last. py_unfold.
    rewrite (IH c (Trace._end_time_append _ self)
                (tbl ++ [Trace.ts_or_zero
                           (tracecmd_read_cpu_last (Trace._handle self) c)])).
    + rewrite last_cons. cbn [map app]. rewrite <- app_assoc. reflexivity.
    + unfold Trace._end_time_append. simpl. rewrite H. reflexivity.
Qed.

(** The first access: the table is filled with the per-CPU entries and the
    extremum of the positive ones, and the entry given back is the one at
    the index the loop left in [cpu]. *)
Lemma start_time_first_access (cpu : Z) (self : Trace.t) :
  Trace._start_time self = None ->
  Trace.start_time cpu self
  = match py_min (Trace.positive (Trace.first_timestamps self)) with
    | None =>
        (Raise (ValueError "min() arg is an empty sequence"),
         Trace.set__start_time (Some (Trace.first_timestamps self)) self,
         map tracecmd_read_cpu_first_call (py_range (Trace.cpus self)))
    | Some m =>
        (py_index (Trace.first_timestamps self ++ [m])
                  (last (py_range (Trace.cpus self)) cpu),
         Trace.set__start_time
           (Some (Trace.first_timestamps self ++ [m])) self,
         map tracecmd_read_cpu_first_call (py_range (Trace.cpus self)))
    end.
Proof.
  intros H. unfold Trace.start_time. py_unfold. rewrite H.
  rewrite (@start_time_for_spec _ _ _ []) by reflexivity.
  cbn [app Trace.set__start_time Trace._start_time Trace.table Trace.cpus
       Trace._handle].
  fold (Trace.first_timestamps self). fold (Trace.positive (Trace.first_timestamps self)).
  destruct (py_min _) as [m|]; cbn.
  - rewrite !app_nil_r. reflexivity.
  - rewrite !app_nil_r. reflexivity.
Qed.

Lemma end_time_first_access (cpu : Z) (self : Trace.t) :
  Trace._end_time self = None ->
  Trace.end_time cpu self
  = match py_max (Trace.positive (Trace.last_timestamps self)) with
    | None =>
        (Raise (ValueError "max() arg is an empty sequence"),
         Trace.set__end_time (Some (Trace.last_timestamps self)) self,
         map tracecmd_read_cpu_last_call (py_range (Trace.cpus self)))
    | Some m =>
        (py_index (Trace.last_timestamps self ++ [m])
                  (last (py_range (Trace.cpus self)) cpu),
         Trace.set__end_time
           (Some (Trace.last_timestamps self ++ [m])) self,
         map tracecmd_read_cpu_last_call (py_range (Trace.cpus self)))
    end.
Proof.
  intros H. unfold Trace.end_time. py_unfold. rewrite H.
  rewrite (@end_time_for_spec _ _ _ []) by reflexivity.
  cbn [app Trace.set__end_time Trace._end_time Trace.table Trace.cpus
       Trace._handle].
  fold (Trace.last_timestamps self). fold (Trace.positive (Trace.last_timestamps self)).
  destruct (py_max _) as [m|]; cbn.
  - rewrite !app_nil_r. reflexivity.
  - rewrite !app_nil_r. reflexivity.
Qed.

(** Every later access: a plain lookup in the cached table, with no read of
    the file and no change to the session. *)
Lemma start_time_cached_access (cpu : Z) (self : Trace.t) (tbl : list Z) :
  Trace._start_time self = Some tbl ->
  Trace.start_time cpu self = (py_index tbl cpu, self, []).
Proof.
  intros H. unfold Trace.start_time. py_unfold. rewrite H. cbn. rewrite H.
  reflexivity.
Qed.

Lemma end_time_cached_access (cpu : Z) (self : Trace.t) (tbl : list Z) :
  Trace._end_time self = Some tbl ->
  Trace.end_time cpu self = (py_index tbl cpu, self, []).
Proof.
  intros H. unfold Trace.end_time. py_unfold. rewrite H. cbn. rewrite H.
  reflexivity.
Qed.

End Timestamps.

(** ** Trace: iteration over the per-CPU streams *)

Section Iteration.
Context {L : PEventLib}.

Lemma py_range_spec (n c : Z) : In c (py_range n) <-> 0 <= c < n.
Proof.
  unfold py_range. rewrite in_map_iff. split.
  - intros (k & <- & Hk). apply in_seq in Hk. lia.
  - intros H. exists (Z.to_nat c). split; [lia|]. apply in_seq. lia.
Qed.

Lemma list_set_length {A : Type} (l : list A) (i : nat) (v : A) :
  List.length (list_set l i v) = List.length l.
Proof.
  revert i. induction l as [|x l IH]; intros [|i]; simpl; auto.
Qed.

Lemma list_set_nth {A : Type} (l : list A) (i : nat) (v d : A) :
  (i < List.length l)%nat -> nth i (list_set l i v) d = v.
Proof.
  revert i. induction l as [|x l IH]; intros [|i] H; simpl in *;
    try lia; auto. apply IH. lia.
Qed.

Lemma skipn_nth_error_some {A : Type} (l : list A) (k : nat) (x : A) :
  nth_error l k = Some x -> skipn k l = x :: skipn (S k) l.
Proof.
  revert k. induction l as [|y l IH]; intros [|k] H; simpl in *;
    try discriminate.
  - congruence.
  - apply IH. exact H.
Qed.

Lemma skipn_nth_error_none {A : Type} (l : list A) (k : nat) :
  nth_error l k = None -> skipn k l = [].
Proof.
  intros H. apply skipn_all2. apply nth_error_None. exact H.
Qed.

Lemma cpu_stream_same_file (h h' : handle) (c : Z) :
  h_file h' = h_file h -> cpu_stream h' c = cpu_stream h c.
Proof.
  intros H. unfold cpu_stream, h_streams. rewrite H. reflexivity.
Qed.

Lemma set_cursor_file (h : handle) (c : Z) (n : nat) :
  h_file (set_cursor h c n) = h_file h.
Proof.
  unfold set_cursor. destruct (c <? 0); reflexivity.
Qed.

Lemma set_cursor_length (h : handle) (c : Z) (n : nat) :
  List.length (h_cursors (set_cursor h c n)) = List.length (h_cursors h).
Proof.
  unfold set_cursor. destruct (c <? 0); simpl; auto using list_set_length.
Qed.

Lemma set_cursor_cursor (h : handle) (c : Z) (n : nat) :
  0 <= c -> (Z.to_nat c < List.length (h_cursors h))%nat ->
  cpu_cursor (set_cursor h c n) c = n.
Proof.
  intros H0 H1. unfold cpu_cursor, set_cursor.
  destruct (c <? 0) eqn:E; [apply Z.ltb_lt in E; lia|].
  simpl. apply list_set_nth. exact H1.
Qed.

Lemma same_capture_trans (a b c : Trace.t) :
  Trace.same_capture a b -> Trace.same_capture b c -> Trace.same_capture a c.
Proof.
  unfold Trace.same_capture. intros (A1 & A2 & A3 & A4 & A5 & A6)
    (B1 & B2 & B3 & B4 & B5 & B6).
  repeat split; try congruence; apply B6.
Qed.

Lemma well_formed_set_cursor (self : Trace.t) (c : Z) (n : nat) :
  Trace.well_formed self ->
  Trace.same_capture self
    (Trace.set__handle (set_cursor (Trace._handle self) c n) self).
Proof.
  intros [W1 W2]. unfold Trace.same_capture, Trace.well_formed, tracecmd_cpus,
    h_streams in *. simpl.
  rewrite set_cursor_file, set_cursor_length. repeat split; auto.
Qed.

Lemma in_range_has_cursor (self : Trace.t) (c : Z) :
  Trace.well_formed self -> 0 <= c < Trace.cpus self ->
  (Z.to_nat c < List.length (h_cursors (Trace._handle self)))%nat.
Proof.
  intros [W1 W2] H. rewrite W2. unfold tracecmd_cpus in W1. lia.
Qed.

Lemma read_event_spec (c : Z) (self : Trace.t) :
  Trace.read_event c self
  = match nth_error (cpu_stream (Trace._handle self) c)
                    (cpu_cursor (Trace._handle self) c) with
    | Some r =>
        (Return (Trace.bound_event (Trace._pevent self) r),
         Trace.set__handle
           (set_cursor (Trace._handle self) c
                       (S (cpu_cursor (Trace._handle self) c))) self,
         [tracecmd_read_data_call c])
    | None => (Return None, self, [tracecmd_read_data_call c])
    end.
Proof.
  unfold Trace.read_event, Trace.read_data, tracecmd_read_data. py_unfold.
  destruct (nth_error _ _) as [r|].
  - rewrite record_to_event_bound_event. reflexivity.
  - destruct self; reflexivity.
Qed.

Lemma bound_event_ts (pe : pevent) (r : pevent_record) (e : Event.t) :
  Trace.bound_event pe r = Some e ->
  Event.ts e = rec_ts r /\ Event._record e = r /\ Event.cpu e = rec_cpu r.
Proof.
  unfold Trace.bound_event.
  destruct (pevent_data_event_from_type _ _); [|discriminate].
  destruct (negb _); [|discriminate].
  intros H. injection H as <-. repeat split.
Qed.

Lemma events_while_yields (fuel : nat) (end_time c : Z) (self : Trace.t) :
  Trace.well_formed self ->
  0 <= c < Trace.cpus self ->
  (List.length (cpu_stream (Trace._handle self) c)
   - cpu_cursor (Trace._handle self) c < fuel)%nat ->
  exists self' calls,
    Trace.events_while fuel c end_time self
    = (Return (Some (Trace.yielded (Trace._pevent self) end_time
                       (skipn (cpu_cursor (Trace._handle self) c)
                              (cpu_stream (Trace._handle self) c)))),
       self', calls)
    /\ Trace.same_capture self self'.
Proof.
  revert self. induction fuel as [|fuel IH]; intros self W Hc Hf; [lia|].
  cbn [Trace.events_while]. unfold bind at 1. rewrite read_event_spec.
  destruct (nth_error _ _) as [r|] eqn:E.
  - rewrite (skipn_nth_error_some _ _ E). cbn [Trace.yielded].
    destruct (Trace.bound_event _ r) as [e|] eqn:B.
    + destruct (bound_event_ts _ _ B) as (-> & _).
      destruct ((end_time >? 0) && (rec_ts r >? end_time)).
      * unfold ret. do 2 eexists. split; [reflexivity|].
        apply well_formed_set_cursor. exact W.
      * set (self1 := Trace.set__handle _ self).
        pose proof (well_formed_set_cursor c
                      (S (cpu_cursor (Trace._handle self) c)) W) as S1.
        fold self1 in S1.
        assert (K : cpu_cursor (Trace._handle self1) c
                    = S (cpu_cursor (Trace._handle self) c)).
        { apply set_cursor_cursor; [lia|].
          apply in_range_has_cursor; assumption. }
        assert (F : cpu_stream (Trace._handle self1) c
                    = cpu_stream (Trace._handle self) c).
        { apply cpu_stream_same_file. apply S1. }
        destruct (IH self1) as (self2 & calls2 & R & S2).
        { apply S1. }
        { destruct S1 as (_ & _ & -> & _). exact Hc. }
        { rewrite K, F.
          assert (cpu_cursor (Trace._handle self) c
                  < List.length (cpu_stream (Trace._handle self) c))%nat
            by (apply nth_error_Some; rewrite E; discriminate).
          lia. }
        rewrite K, F in R.
        replace (Trace._pevent self1) with (Trace._pevent self) in R
          by (symmetry; apply S1).
        unfold bind. rewrite R. unfold ret. cbn [option_map].
        do 2 eexists. split; [reflexivity|].
        eapply same_capture_trans; [|exact S2].
        apply well_formed_set_cursor. exact W.
    + unfold ret. do 2 eexists. split; [reflexivity|].
      apply well_formed_set_cursor. exact W.
  - rewrite (skipn_nth_error_none _ _ E). unfold ret. cbn.
    do 2 eexists. split; [reflexivity|].
    unfold Trace.same_capture. repeat split; apply W.
Qed.

Lemma rewind_in_range (c start_time : Z) (self : Trace.t) :
  0 <= c < Trace.cpus self ->
  Trace.rewind c start_time self
  = (Return tt,
     Trace.set__handle
       (set_cursor (Trace._handle self) c
          (seek_index start_time (cpu_stream (Trace._handle self) c))) self,
     [tracecmd_set_cpu_to_timestamp_call c start_time]).
Proof.
  intros H. unfold Trace.rewind. py_unfold.
  replace (existsb (Z.eqb c) (py_range (Trace.cpus self))) with true.
  - reflexivity.
  - symmetry. apply existsb_exists. exists c. split.
    + apply py_range_spec. exact H.
    + apply Z.eqb_refl.
Qed.

Lemma stream_in_range (self : Trace.t) (c : Z) :
  Trace.well_formed self -> 0 <= c < Trace.cpus self ->
  In (cpu_stream (Trace._handle self) c) (h_streams (Trace._handle self)).
Proof.
  intros [W1 W2] H. unfold cpu_stream, tracecmd_cpus in *.
  destruct (c <? 0) eqn:E; [apply Z.ltb_lt in E; lia|].
  apply nth_In. lia.
Qed.

Lemma events_for_yields (fuel : nat) (cs : list Z)
    (target_cpu start_time end_time : Z) (self : Trace.t) :
  Trace.well_formed self ->
  (forall c, In c cs -> 0 <= c < Trace.cpus self) ->
  Forall (fun s => (List.length s < fuel)%nat)
         (h_streams (Trace._handle self)) ->
  exists self' calls,
    Trace.events_for fuel cs target_cpu start_time end_time self
    = (Return (Some (flat_map
                       (fun c => Trace.yielded (Trace._pevent self) end_time
                                   (Trace.from_timestamp (Trace._handle self)
                                      c start_time))
                       (filter (fun c => (target_cpu =? c)
                                         || (target_cpu =? -1)) cs))),
       self', calls)
    /\ Trace.same_capture self self'.
Proof.
  revert self. induction cs as [|c cs IH]; intros self W Hcs Hf.
  - cbn. unfold ret. do 2 eexists. split; [reflexivity|].
    unfold Trace.same_capture. repeat split; apply W.
  - assert (Hc : 0 <= c < Trace.cpus self) by (apply Hcs; left; reflexivity).
    cbn [Trace.events_for filter].
    assert (Step : exists self1 calls1,
      (if (target_cpu =? c) || (target_cpu =? -1)
       then (Trace.rewind c start_time ;;
             Trace.events_while fuel c end_time)%py
       else ret (Some [])) self
      = (Return (Some (if (target_cpu =? c) || (target_cpu =? -1)
                       then Trace.yielded (Trace._pevent self) end_time
                              (Trace.from_timestamp (Trace._handle self)
                                 c start_time)
                       else [])), self1, calls1)
      /\ Trace.same_capture self self1).
    { destruct ((target_cpu =? c) || (target_cpu =? -1)).
      - unfold bind. rewrite (@rewind_in_range c start_time self Hc).
        set (self0 := Trace.set__handle _ self).
        pose proof (well_formed_set_cursor c
          (seek_index start_time (cpu_stream (Trace._handle self) c)) W) as S0.
        fold self0 in S0.
        assert (K : cpu_cursor (Trace._handle self0) c
                    = seek_index start_time
                        (cpu_stream (Trace._handle self) c)).
        { apply set_cursor_cursor; [lia|].
          apply in_range_has_cursor; assumption. }
        assert (F : cpu_stream (Trace._handle self0) c
                    = cpu_stream (Trace._handle self) c).
        { apply cpu_stream_same_file. apply S0. }
        destruct (@events_while_yields fuel end_time c self0)
          as (self1 & calls1 & R & S1).
        { apply S0. }
        { destruct S0 as (_ & _ & -> & _). exact Hc. }
        { rewrite F.
          pose proof (stream_in_range W Hc) as I.
          rewrite Forall_forall in Hf. specialize (Hf _ I). simpl in Hf. lia. }
        rewrite K, F in R.
        replace (Trace._pevent self0) with (Trace._pevent self) in R
          by (symmetry; apply S0).
        rewrite R. do 2 eexists. split; [reflexivity|].
        eapply same_capture_trans; eassumption.
      - unfold ret. do 2 eexists. split; [reflexivity|].
        unfold Trace.same_capture. repeat split; apply W. }
    destruct Step as (self1 & calls1 & R1 & S1).
    destruct (IH self1) as (self2 & calls2 & R2 & S2).
    { apply S1. }
    { intros x Hx. destruct S1 as (_ & _ & -> & _). apply Hcs. right. exact Hx. }
    { unfold h_streams in *. destruct S1 as (-> & _). exact Hf. }
    unfold bind at 1. rewrite R1. unfold bind at 1. rewrite R2.
    unfold ret. cbn [Trace.append_yields].
    do 2 eexists. split.
    + f_equal. f_equal. f_equal. f_equal.
      destruct S1 as (F1 & P1 & _).
      destruct ((target_cpu =? c) || (target_cpu =? -1)); cbn [flat_map app].
      * f_equal. rewrite P1. apply flat_map_ext. intros x.
        unfold Trace.from_timestamp. rewrite (cpu_stream_same_file _ _ x F1).
        reflexivity.
      * rewrite P1. apply flat_map_ext. intros x.
        unfold Trace.from_timestamp. rewrite (cpu_stream_same_file _ _ x F1).
        reflexivity.
    + eapply same_capture_trans; eassumption.
Qed.

(** With the "all" selector every CPU is visited, in ascending order. *)
Lemma selected_all (n : Z) : Trace.selected n (-1) = py_range n.
Proof.
  unfold Trace.selected. induction (py_range n) as [|c l IH]; [reflexivity|].
  cbn [filter]. rewrite Z.eqb_refl, orb_true_r. f_equal. exact IH.
Qed.

Lemma yielded_within_end_time (pe : pevent) (end_time : Z)
    (rs : list pevent_record) :
  Forall (fun e => end_time > 0 -> Event.ts e <= end_time)
         (Trace.yielded pe end_time rs).
Proof.
  induction rs as [|r rs IH]; cbn [Trace.yielded]; [constructor|].
  destruct (Trace.bound_event pe r) as [e|] eqn:B; [|constructor].
  destruct ((end_time >? 0) && (rec_ts r >? end_time)) eqn:C; constructor;
    [|exact IH].
  intros H. destruct (bound_event_ts _ _ B) as (-> & _).
  apply andb_false_iff in C. destruct C as [C|C]; lia.
Qed.

Lemma yielded_on_disk_order (pe : pevent) (end_time : Z)
    (rs : list pevent_record) :
  exists k : nat,
    map Event._record (Trace.yielded pe end_time rs) = firstn k rs
    /\ match nth_error rs k with
       | None => (k = List.length rs)%nat
       | Some r =>
           Trace.bound_event pe r = None
           \/ (end_time > 0 /\ rec_ts r > end_time)
       end.
Proof.
  induction rs as [|r rs (k & IH1 & IH2)]; cbn [Trace.yielded].
  - exists 0%nat. split; reflexivity.
  - destruct (Trace.bound_event pe r) as [e|] eqn:B.
    + destruct ((end_time >? 0) && (rec_ts r >? end_time)) eqn:C.
      * exists 0%nat. split; [reflexivity|]. cbn. right.
        apply andb_true_iff in C. lia.
      * exists (S k). cbn [map firstn nth_error List.length].
        destruct (bound_event_ts _ _ B) as (_ & -> & _).
        rewrite IH1. split; [reflexivity|].
        destruct (nth_error rs k); [exact IH2|congruence].
    + exists 0%nat. split; [reflexivity|]. cbn. left. exact B.
Qed.

(** [events], consumed to its end on a well-formed session with fuel
    beyond the length of every stream, always gives its result: the CPUs it
    visits are the selected ones in ascending order; for each, the cursor is
    set to the first record at or after [start_time], and the events of the
    records from there on are yielded in stream order up to the first record
    that gives no Event or, when [end_time > 0], lies after [end_time]. *)
Lemma events_yields (fuel : nat) (target_cpu start_time end_time : Z)
    (self : Trace.t) :
  Trace.well_formed self ->
  Forall (fun s => (List.length s < fuel)%nat)
         (h_streams (Trace._handle self)) ->
  exists self' calls,
    Trace.events fuel target_cpu start_time end_time self
    = (Return (Some (flat_map
                       (fun c => Trace.yielded (Trace._pevent self) end_time
                                   (Trace.from_timestamp (Trace._handle self)
                                      c start_time))
                       (Trace.selected (Trace.cpus self) target_cpu))),
       self', calls)
    /\ Trace.same_capture self self'.
Proof.
  intros W Hf. unfold Trace.events, Trace.selected. unfold bind, gets.
  destruct (@events_for_yields fuel (py_range (Trace.cpus self)) target_cpu
              start_time end_time self W) as (self' & calls & R & S'); auto.
  { intros c Hc. apply py_range_spec. exact Hc. }
  rewrite R. do 2 eexists. split; [reflexivity|exact S'].
Qed.

End Iteration.

(** ** Trace: captures without records *)

Section EmptyCapture.
Context {L : PEventLib}.

Lemma positive_zeros {A : Type} (l : list A) :
  Trace.positive (map (fun _ => 0) l) = [].
Proof.
  induction l as [|x l IH]; [reflexivity|]. cbn. exact IH.
Qed.

(** C9: on a session where the first-record and last-record lookups find no
    record on any CPU, the first access to [start_time] raises ValueError
    (the [min] of an empty sequence) and the first access to [end_time]
    raises ValueError (the [max] of an empty sequence), whatever the
    selector; neither returns 0.  The slot is left holding the per-CPU zeros
    without the session-wide entry. *)
Theorem timestamps_raise_on_empty_capture (self : Trace.t) (cpu : Z) :
  (forall c, In c (py_range (Trace.cpus self)) ->
     tracecmd_read_cpu_first (Trace._handle self) c = None
     /\ tracecmd_read_cpu_last (Trace._handle self) c = None) ->
  (Trace._start_time self = None ->
     value_of (Trace.start_time cpu self)
     = Raise (ValueError "min() arg is an empty sequence")
     /\ Trace._start_time (state_of (Trace.start_time cpu self))
        = Some (map (fun _ => 0) (py_range (Trace.cpus self))))
  /\ (Trace._end_time self = None ->
        value_of (Trace.end_time cpu self)
        = Raise (ValueError "max() arg is an empty sequence")
        /\ Trace._end_time (state_of (Trace.end_time cpu self))
           = Some (map (fun _ => 0) (py_range (Trace.cpus self)))).
Proof.
  intros H.
  assert (F : Trace.first_timestamps self
              = map (fun _ => 0) (py_range (Trace.cpus self))).
  { unfold Trace.first_timestamps. apply map_ext_in. intros c Hc.
    destruct (H c Hc) as [-> _]. reflexivity. }
  assert (G : Trace.last_timestamps self
              = map (fun _ => 0) (py_range (Trace.cpus self))).
  { unfold Trace.last_timestamps. apply map_ext_in. intros c Hc.
    destruct (H c Hc) as [_ ->]. reflexivity. }
  split; intros N.
  - rewrite (@start_time_first_access L cpu self N), F, positive_zeros.
    split; reflexivity.
  - rewrite (@end_time_first_access L cpu self N), G, positive_zeros.
    split; reflexivity.
Qed.

End EmptyCapture.

(** ** The implementation of the native half *)

Lemma string_kind_read_fails (f : SpecLib.field_schema) (d : list byte) :
  SpecLib.is_string_kind f = true ->
  fst (SpecLib.read_number_field f d) <> 0.
Proof.
  intros H. unfold SpecLib.read_number_field. rewrite H. discriminate.
Qed.

(** ** The sample captures *)

Section Samples.
Import SpecLib Sample.

(** C1: on the capture whose CPU0 stream is the records at 100, 200 and
    300, the one at 200 with a type-id the catalog does not know, and whose
    CPU1 stream is the records at 150 and 250, [events(-1, 0, 0)] yields the
    events at 100, 150 and 250 only: CPU0's iteration ends at the record at
    200, before the stream does, and the record at 300, which does give an
    Event, is never yielded.  [records(-1, 0, 0)] on the same capture yields
    all five records. *)
Theorem events_stop_at_unknown_type :
  let self := session with_unknown in
  result_map (option_map (map Event.ts))
             (value_of (Trace.events 10 (-1) 0 0 self))
  = Return (Some [100; 150; 250])
  /\ result_map (option_map (map rec_ts))
                (value_of (Trace.records 10 (-1) 0 0 self))
     = Return (Some [100; 200; 300; 150; 250])
  /\ cpu_stream (Trace._handle self) 0
     = [rec 0 100 1; rec 0 200 99; rec 0 300 1]
  /\ Trace.bound_event cat (rec 0 200 99) = None
  /\ Trace.bound_event cat (rec 0 300 1) = Some (event (rec 0 300 1)).
Proof.
  cbv zeta. split; [|split; [|split; [|split]]]; reflexivity.
Qed.

(** C2: on the capture with CPU0 records at 100, 200, 300 and CPU1 records
    at 150, 250, the first access to [start_time] fills the table with
    [100; 150] and the session-wide minimum 100 in the extra slot, but gives
    back 150, the entry of the last CPU, with the "all" selector and with
    the selector of CPU 0 alike; the first access to [end_time] fills
    [300; 250; 300] and gives back 250. *)
Theorem first_access_gives_last_cpu_entry :
  let self := session two_cpus in
  Trace.start_time_property self
  = (Return 150, Trace.set__start_time (Some [100; 150; 100]) self,
     [tracecmd_read_cpu_first_call 0; tracecmd_read_cpu_first_call 1])
  /\ value_of (Trace.start_time 0 self) = Return 150
  /\ Trace.end_time_property self
     = (Return 250, Trace.set__end_time (Some [300; 250; 300]) self,
        [tracecmd_read_cpu_last_call 0; tracecmd_read_cpu_last_call 1])
  /\ value_of (Trace.end_time 0 self) = Return 250.
Proof.
  cbv zeta. repeat split; reflexivity.
Qed.

(** C3: on the same capture the second access to [start_time] gives 100
    where the first gave 150, and the second access to [end_time] gives 300
    where the first gave 250; the second access reads nothing from the file
    and leaves the session as the first left it. *)
Theorem second_access_differs_from_first :
  let self := session two_cpus in
  let first_start := Trace.start_time_property self in
  let second_start := Trace.start_time_property (state_of first_start) in
  let first_end := Trace.end_time_property self in
  let second_end := Trace.end_time_property (state_of first_end) in
  value_of first_start = Return 150
  /\ second_start = (Return 100, state_of first_start, [])
  /\ value_of first_end = Return 250
  /\ second_end = (Return 300, state_of first_end, []).
Proof.
  cbv zeta. repeat split; reflexivity.
Qed.

(** C4 as stated fails: the lookup of a name the schema does not declare
    raises a KeyError, which is no FieldError. *)
Lemma getitem_missing_is_no_FieldError :
  pevent_find_field (Event._format (event (rec 0 100 1))) "nonexistent" = None
  /\ value_of (Event.__getitem__ "nonexistent" (event (rec 0 100 1)))
     = Raise (KeyError "no field 'nonexistent'")
  /\ forall msg,
       value_of (Event.__getitem__ "nonexistent" (event (rec 0 100 1)))
       <> Raise (FieldError msg).
Proof.
  split; [reflexivity|]. split; [reflexivity|]. intros msg. discriminate.
Qed.

(** The amended C4 on the sample Event. *)
Lemma getitem_missing_witness :
  Event.__getitem__ "nonexistent" (event (rec 0 100 1))
  = (Raise (KeyError "no field 'nonexistent'"), event (rec 0 100 1), [])
  /\ forall later : list View.access,
       View.perform_all later
         (state_of (Event.__getitem__ "nonexistent" (event (rec 0 100 1))))
       = View.perform_all later (event (rec 0 100 1)).
Proof.
  apply (@getitem_missing_raises_KeyError lib (event (rec 0 100 1))
           "nonexistent").
  reflexivity.
Defined.

(** C5 on the string field [comm] of the sample record. *)
Lemma Field_long_witness :
  Field.__long__ (Field.__init__ (L := lib) (rec 0 100 1) f_comm)
  = (Raise (FieldError "Not a number field"),
     Field.__init__ (L := lib) (rec 0 100 1) f_comm, [])
  /\ Field.__int__ (Field.__init__ (L := lib) (rec 0 100 1) f_comm)
     = (Raise (FieldError "Not a number field"),
        Field.__init__ (L := lib) (rec 0 100 1) f_comm, []).
Proof.
  apply (@Field_long_raises_FieldError lib
           (Field.__init__ (L := lib) (rec 0 100 1) f_comm)).
  lazy. discriminate.
Defined.

(** C6 on a record of unknown type and on one the catalog knows. *)
Lemma record_to_event_witness :
  Trace.record_to_event (Some (rec 0 200 99)) (session with_unknown)
  = (Return None, session with_unknown, [])
  /\ exists e,
       Trace.record_to_event (Some (rec 0 100 1)) (session with_unknown)
       = (Return (Some e), session with_unknown, [])
       /\ e = Event.__init__ cat (rec 0 100 1) sched_wakeup 1
       /\ Event._record e = rec 0 100 1 /\ Event._format e = sched_wakeup
       /\ Event.type e = 1.
Proof.
  split.
  - apply (proj1 (@record_to_event_none_or_bound lib (session with_unknown)
                    (rec 0 200 99))).
    reflexivity.
  - apply (proj2 (@record_to_event_none_or_bound lib (session with_unknown)
                    (rec 0 100 1)) sched_wakeup).
    + lazy. discriminate.
    + reflexivity.
Defined.

(** C9 on the capture of two CPUs without records. *)
Lemma empty_capture_witness :
  value_of (Trace.start_time_property (session all_empty))
  = Raise (ValueError "min() arg is an empty sequence")
  /\ value_of (Trace.end_time_property (session all_empty))
     = Raise (ValueError "max() arg is an empty sequence").
Proof.
  destruct (@timestamps_raise_on_empty_capture lib (session all_empty) (-1))
    as [A B].
  - intros c [<-|[<-|[]]]; split; reflexivity.
  - split.
    + apply A. reflexivity.
    + apply B. reflexivity.
Defined.

(** C10 as stated fails: [str_field] raises on a field that exists when
    the native string decoder does, here on a dynamic string that reaches
    past the payload. *)
Lemma str_field_raises :
  pevent_find_any_field (Event._format (event rec_short)) "msg" = Some f_msg
  /\ value_of (Event.str_field "msg" (event rec_short))
     = Raise (DecodeError Truncated).
Proof.
  split; reflexivity.
Qed.

(** The amended C10 on the sample Event: a name the schema lacks, a
    string field, an integer field and the two string decodes. *)
Lemma num_field_str_field_witness :
  (Event.num_field "nonexistent" (event rec_short)
   = (Return None, event rec_short, [])
   /\ Event.str_field "nonexistent" (event rec_short)
      = (Return None, event rec_short, []))
  /\ (Event.num_field "comm" (event rec_short)
      = (Return None, event rec_short, [])
      /\ Field.__long__ (Field.__init__ (L := lib) rec_short f_comm)
         = (Raise (FieldError "Not a number field"),
            Field.__init__ (L := lib) rec_short f_comm, []))
  /\ Event.num_field "prio" (event rec_short)
     = (Return (Some 120), event rec_short, [])
  /\ Event.str_field "comm" (event rec_short)
     = (Return (Some "bash"), event rec_short, [])
  /\ Event.str_field "msg" (event rec_short)
     = (Raise (DecodeError Truncated), event rec_short, []).
Proof.
  split; [|split; [|split; [|split]]].
  - apply (proj1 (proj2 (@num_field_str_field_results lib (event rec_short)
                           "nonexistent"))).
    reflexivity.
  - apply (proj1 (proj2 (proj2 (@num_field_str_field_results lib
                                  (event rec_short) "comm"))) f_comm).
    + reflexivity.
    + lazy. discriminate.
  - apply (proj1 (proj2 (proj2 (proj2 (@num_field_str_field_results lib
                                         (event rec_short) "prio")))) f_prio).
    + reflexivity.
    + reflexivity.
  - apply (proj2 (proj2 (proj2 (proj2 (@num_field_str_field_results lib
                                         (event rec_short) "comm")))) f_comm).
    reflexivity.
  - apply (proj2 (proj2 (proj2 (proj2 (@num_field_str_field_results lib
                                         (event rec_short) "msg")))) f_msg).
    reflexivity.
Defined.

End Samples.

(** * Further properties *)

(** ** Event: derived attributes, field access and printing *)

Section EventFurther.
Context {L : PEventLib}.

Lemma num_field_total (self : Event.t) (n : string) :
  exists v, Event.num_field n self = (Return v, self, []).
Proof.
  unfold Event.num_field. py_unfold.
  destruct (pevent_find_any_field _ _) as [f|]; [|eauto].
  destruct (pevent_read_number_field _ _) as [rc v].
  destruct (negb (rc =? 0)); eauto.
Qed.


Lemma comm_keeps_attributes (self : Event.t) :
  let after := state_of (Event.comm self) in
  Event._pevent after = Event._pevent self
  /\ Event._record after = Event._record self
  /\ Event._format after = Event._format self
  /\ Event.type after = Event.type self
  /\ Event.cpu after = Event.cpu self
  /\ Event.ts after = Event.ts self
  /\ Event.name after = Event.name self.
Proof.
  unfold Event.comm, Event.pid. py_unfold.
  destruct (Event._comm self); [cbn; repeat split|].
  destruct (Event._pid self); cbn; repeat split.
Qed.

Lemma comm_returns (self : Event.t) :
  exists c, value_of (Event.comm self) = Return c
            /\ Event._comm (state_of (Event.comm self)) = Some c.
Proof.
  unfold Event.comm, Event.pid. py_unfold.
  destruct (Event._comm self) as [c|] eqn:E; cbn; [eauto|].
  destruct (Event._pid self); cbn; eauto.
Qed.

Lemma comm_served (self : Event.t) (c : string) :
  Event._comm self = Some c -> Event.comm self = (Return c, self, []).
Proof.
  intros H. unfold Event.comm. py_unfold. rewrite H. reflexivity.
Qed.

(** X1: the first [comm] of an Event resolves the name through [pid]: it
    is the entry of the pid-to-name table for the process id that [pid]
    gives, it makes the calls of [pid] (none when the id was already
    cached) followed by one query of the table, and it leaves the id
    cached, so that a [pid] after it makes no native call. *)
Theorem comm_resolved_through_pid (self : Event.t) :
  Event._comm self = None ->
  exists p,
    value_of (Event.pid self) = Return p
    /\ value_of (Event.comm self)
       = Return (pevent_data_comm_from_pid (Event._pevent self) p)
    /\ calls_of (Event.comm self)
       = calls_of (Event.pid self) ++ [pevent_data_comm_from_pid_call p]
    /\ Event.pid (state_of (Event.comm self))
       = (Return p, state_of (Event.comm self), []).
Proof.
  intros H. unfold Event.comm, Event.pid. py_unfold. rewrite H.
  destruct (Event._pid self) as [p|] eqn:E; cbn.
  - exists p. rewrite E. repeat split.
  - eexists. repeat split.
Qed.

(** X2: for a name that both lookups resolve to the same field,
    [str(event[name])] and [event.str_field(name)] give the same string or
    the same exception, and [int(event[name])] gives the number that
    [event.num_field(name)] gives, raising FieldError exactly where
    [num_field] gives None. *)
Theorem item_coercions_agree_with_field_readers (self : Event.t) (n : string)
    (f : format_field) :
  pevent_find_field (Event._format self) n = Some f ->
  pevent_find_any_field (Event._format self) n = Some f ->
  exists fld,
    value_of (Event.__getitem__ n self) = Return fld
    /\ value_of (Event.str_field n self)
       = result_map Some (value_of (Field.__str__ fld))
    /\ match value_of (Field.__long__ fld) with
       | Return v => value_of (Event.num_field n self) = Return (Some v)
       | Raise e =>
           e = FieldError "Not a number field"
           /\ value_of (Event.num_field n self) = Return None
       end.
Proof.
  intros H1 H2. exists (Field.__init__ (Event._record self) f).
  unfold Event.__getitem__, Event.str_field, Event.num_field, Field.__str__,
    Field.__long__. py_unfold. rewrite H1, H2. cbn.
  repeat split.
  destruct (pevent_read_number_field _ _) as [rc v].
  destruct (negb (rc =? 0)); cbn; auto.
Qed.

(** What [__str__] does, in terms of [num_field] and [comm]. *)
Lemma str_outcome (self : Event.t) :
  exists v c,
    value_of (Event.num_field "common_pid" self) = Return v
    /\ value_of (Event.comm self) = Return c
    /\ Event.__str__ self
       = (match v with
          | None =>
              Raised (TypeError
                        "%d format: a number is required, not NoneType")
          | Some p =>
              Returned (Event.format_line
                          (Event.ts self / 1000000000)
                          (Event.ts self mod 1000000000)
                          (Event.cpu self) (Event.name self) p c
                          (Event.type self))
          end,
          state_of (Event.comm self), calls_of (Event.comm self)).
Proof.
  destruct (num_field_total self "common_pid") as (v & Hn).
  destruct (comm_returns self) as (c & Hc & _).
  destruct (comm_keeps_attributes self) as (_ & _ & _ & Ht & _).
  exists v, c. rewrite Hn. split; [reflexivity|]. split; [exact Hc|].
  unfold Event.__str__, bindx, liftx, gets, retx, raisex. rewrite Hn.
  destruct (Event.comm self) as [[rc s1] l1]. cbn in *. subst rc.
  rewrite Ht. destruct v; rewrite ?app_nil_r; reflexivity.
Qed.

(** X3: when [num_field("common_pid")] gives None (the schema has no such
    field, or its numeric read fails), [__str__] raises TypeError; by then
    it has resolved [comm], so the Event is left as [comm] leaves it, with
    its name cached. *)
Theorem str_raises_TypeError_without_common_pid (self : Event.t) :
  value_of (Event.num_field "common_pid" self) = Return None ->
  value_of (Event.__str__ self)
  = Raised (TypeError "%d format: a number is required, not NoneType")
  /\ state_of (Event.__str__ self) = state_of (Event.comm self)
  /\ exists c,
       Event.comm (state_of (Event.__str__ self))
       = (Return c, state_of (Event.__str__ self), []).
Proof.
  intros H. destruct (str_outcome self) as (v & c & Hn & Hc & E).
  rewrite H in Hn. injection Hn as <-. rewrite E. cbn.
  split; [reflexivity|]. split; [reflexivity|].
  destruct (comm_returns self) as (c' & _ & Hs).
  exists c'. apply comm_served. exact Hs.
Qed.


End EventFurther.

(** ** Trace: the two generators *)

Section Generators.
Context {L : PEventLib}.

Lemma read_data_spec (c : Z) (self : Trace.t) :
  Trace.read_data c self
  = match nth_error (cpu_stream (Trace._handle self) c)
                    (cpu_cursor (Trace._handle self) c) with
    | Some r =>
        (Return (Some r),
         Trace.set__handle
           (set_cursor (Trace._handle self) c
                       (S (cpu_cursor (Trace._handle self) c))) self,
         [tracecmd_read_data_call c])
    | None => (Return None, self, [tracecmd_read_data_call c])
    end.
Proof.
  unfold Trace.read_data, tracecmd_read_data. py_unfold.
  destruct (nth_error _ _) as [r|]; [reflexivity|].
  destruct self; reflexivity.
Qed.

Lemma same_capture_refl (self : Trace.t) :
  Trace.well_formed self -> Trace.same_capture self self.
Proof.
  intros W. unfold Trace.same_capture. repeat split; apply W.
Qed.

Lemma records_while_yields (fuel : nat) (end_time c : Z) (self : Trace.t) :
  Trace.well_formed self ->
  0 <= c < Trace.cpus self ->
  (List.length (cpu_stream (Trace._handle self) c)
   - cpu_cursor (Trace._handle self) c < fuel)%nat ->
  exists self' calls,
    Trace.records_while fuel c end_time self
    = (Return (Some (Trace.within end_time
                       (skipn (cpu_cursor (Trace._handle self) c)
                              (cpu_stream (Trace._handle self) c)))),
       self', calls)
    /\ Trace.same_capture self self'.
Proof.
  revert self. induction fuel as [|fuel IH]; intros self W Hc Hf; [lia|].
  cbn [Trace.records_while]. unfold bind at 1. rewrite read_data_spec.
  destruct (nth_error _ _) as [r|] eqn:E.
  - rewrite (skipn_nth_error_some _ _ E). cbn [Trace.within].
    unfold pevent_record_ts_get.
    destruct ((end_time >? 0) && (rec_ts r >? end_time)).
    + unfold ret. do 2 eexists. split; [reflexivity|].
      apply well_formed_set_cursor. exact W.
    + set (self1 := Trace.set__handle _ self).
      pose proof (well_formed_set_cursor c
                    (S (cpu_cursor (Trace._handle self) c)) W) as S1.
      fold self1 in S1.
      assert (K : cpu_cursor (Trace._handle self1) c
                  = S (cpu_cursor (Trace._handle self) c)).
      { apply set_cursor_cursor; [lia|].
        apply in_range_has_cursor; assumption. }
      assert (F : cpu_stream (Trace._handle self1) c
                  = cpu_stream (Trace._handle self) c).
      { apply cpu_stream_same_file. apply S1. }
      destruct (IH self1) as (self2 & calls2 & R & S2).
      { apply S1. }
      { destruct S1 as (_ & _ & -> & _). exact Hc. }
      { rewrite K, F.
        assert (cpu_cursor (Trace._handle self) c
                < List.length (cpu_stream (Trace._handle self) c))%nat
          by (apply nth_error_Some; rewrite E; discriminate).
        lia. }
      rewrite K, F in R.
      unfold bind. rewrite R. unfold ret. cbn [option_map].
      do 2 eexists. split; [reflexivity|].
      eapply same_capture_trans; [|exact S2]. exact S1.
  - rewrite (skipn_nth_error_none _ _ E). unfold ret. cbn.
    do 2 eexists. split; [reflexivity|]. apply same_capture_refl. exact W.
Qed.

Lemma records_for_yields (fuel : nat) (cs : list Z)
    (target_cpu start_time end_time : Z) (self : Trace.t) :
  Trace.well_formed self ->
  (forall c, In c cs -> 0 <= c < Trace.cpus self) ->
  Forall (fun s => (List.length s < fuel)%nat)
         (h_streams (Trace._handle self)) ->
  exists self' calls,
    Trace.records_for fuel cs target_cpu start_time end_time self
    = (Return (Some (flat_map
                       (fun c => Trace.within end_time
                                   (Trace.from_timestamp (Trace._handle self)
                                      c start_time))
                       (filter (fun c => (target_cpu =? c)
                                         || (target_cpu =? -1)) cs))),
       self', calls)
    /\ Trace.same_capture self self'.
Proof.
  revert self. induction cs as [|c cs IH]; intros self W Hcs Hf.
  - cbn. unfold ret. do 2 eexists. split; [reflexivity|].
    apply same_capture_refl. exact W.
  - assert (Hc : 0 <= c < Trace.cpus self) by (apply Hcs; left; reflexivity).
    cbn [Trace.records_for filter].
    assert (Step : exists self1 calls1,
      (if (target_cpu =? c) || (target_cpu =? -1)
       then (Trace.rewind c start_time ;;
             Trace.records_while fuel c end_time)%py
       else ret (Some [])) self
      = (Return (Some (if (target_cpu =? c) || (target_cpu =? -1)
                       then Trace.within end_time
                              (Trace.from_timestamp (Trace._handle self)
                                 c start_time)
                       else [])), self1, calls1)
      /\ Trace.same_capture self self1).
    { destruct ((target_cpu =? c) || (target_cpu =? -1)).
      - unfold bind. rewrite (@rewind_in_range L c start_time self Hc).
        set (self0 := Trace.set__handle _ self).
        pose proof (well_formed_set_cursor c
          (seek_index start_time (cpu_stream (Trace._handle self) c)) W) as S0.
        fold self0 in S0.
        assert (K : cpu_cursor (Trace._handle self0) c
                    = seek_index start_time
                        (cpu_stream (Trace._handle self) c)).
        { apply set_cursor_cursor; [lia|].
          apply in_range_has_cursor; assumption. }
        assert (F : cpu_stream (Trace._handle self0) c
                    = cpu_stream (Trace._handle self) c).
        { apply cpu_stream_same_file. apply S0. }
        destruct (@records_while_yields fuel end_time c self0)
          as (self1 & calls1 & R & S1).
        { apply S0. }
        { destruct S0 as (_ & _ & -> & _). exact Hc. }
        { rewrite F.
          pose proof (stream_in_range W Hc) as I.
          rewrite Forall_forall in Hf. specialize (Hf _ I). simpl in Hf. lia. }
        rewrite K, F in R.
        rewrite R. do 2 eexists. split; [reflexivity|].
        eapply same_capture_trans; eassumption.
      - unfold ret. do 2 eexists. split; [reflexivity|].
        apply same_capture_refl. exact W. }
    destruct Step as (self1 & calls1 & R1 & S1).
    destruct (IH self1) as (self2 & calls2 & R2 & S2).
    { apply S1. }
    { intros x Hx. destruct S1 as (_ & _ & -> & _). apply Hcs. right. exact Hx. }
    { unfold h_streams in *. destruct S1 as (-> & _). exact Hf. }
    unfold bind at 1. rewrite R1. unfold bind at 1. rewrite R2.
    unfold ret. cbn [Trace.append_yields].
    do 2 eexists. split.
    + f_equal. f_equal. f_equal. f_equal.
      destruct S1 as (F1 & _).
      destruct ((target_cpu =? c) || (target_cpu =? -1)); cbn [flat_map app].
      * f_equal. apply flat_map_ext. intros x.
        unfold Trace.from_timestamp. rewrite (cpu_stream_same_file _ _ x F1).
        reflexivity.
      * apply flat_map_ext. intros x.
        unfold Trace.from_timestamp. rewrite (cpu_stream_same_file _ _ x F1).
        reflexivity.
    + eapply same_capture_trans; eassumption.
Qed.

(** [records], consumed to its end: the counterpart of [events_yields]. *)
Lemma records_run (fuel : nat) (target_cpu start_time end_time : Z)
    (self : Trace.t) :
  Trace.well_formed self ->
  Forall (fun s => (List.length s < fuel)%nat)
         (h_streams (Trace._handle self)) ->
  exists self' calls,
    Trace.records fuel target_cpu start_time end_time self
    = (Return (Some (flat_map
                       (fun c => Trace.within end_time
                                   (Trace.from_timestamp (Trace._handle self)
                                      c start_time))
                       (Trace.selected (Trace.cpus self) target_cpu))),
       self', calls)
    /\ Trace.same_capture self self'.
Proof.
  intros W Hf. unfold Trace.records, Trace.selected. unfold bind, gets.
  destruct (@records_for_yields fuel (py_range (Trace.cpus self)) target_cpu
              start_time end_time self W) as (self' & calls & R & S'); auto.
  { intros c Hc. apply py_range_spec. exact Hc. }
  rewrite R. do 2 eexists. split; [reflexivity|exact S'].
Qed.


Lemma within_end_time (end_time : Z) (rs : list pevent_record) :
  Forall (fun r => end_time > 0 -> rec_ts r <= end_time)
         (Trace.within end_time rs).
Proof.
  induction rs as [|r rs IH]; cbn [Trace.within]; [constructor|].
  destruct ((end_time >? 0) && (rec_ts r >? end_time)) eqn:C; constructor;
    [|exact IH].
  intros H. apply andb_false_iff in C. destruct C as [C|C]; lia.
Qed.

Lemma within_incl (end_time : Z) (rs : list pevent_record) (r : pevent_record) :
  In r (Trace.within end_time rs) -> In r rs.
Proof.
  induction rs as [|x rs IH]; cbn [Trace.within]; [auto|].
  destruct ((end_time >? 0) && (rec_ts x >? end_time)); [intros []|].
  intros [->|H]; [left; reflexivity|right; auto].
Qed.

Lemma within_unbounded (end_time : Z) (rs : list pevent_record) :
  end_time <= 0 -> Trace.within end_time rs = rs.
Proof.
  intros H. induction rs as [|r rs IH]; cbn [Trace.within]; [reflexivity|].
  replace (end_time >? 0) with false
    by (symmetry; rewrite Z.gtb_ltb; apply Z.ltb_ge; lia).
  cbn. rewrite IH. reflexivity.
Qed.

Lemma yielded_incl (pe : pevent) (end_time : Z) (rs : list pevent_record)
    (e : Event.t) :
  In e (Trace.yielded pe end_time rs) ->
  In (Event._record e) rs /\ Event.ts e = rec_ts (Event._record e).
Proof.
  induction rs as [|x rs IH]; cbn [Trace.yielded]; [intros []|].
  destruct (Trace.bound_event pe x) as [e0|] eqn:B; [|intros []].
  destruct ((end_time >? 0) && (rec_ts x >? end_time)); [intros []|].
  destruct (bound_event_ts _ _ B) as (T & R & _).
  intros [<-|H].
  - rewrite R. split; [left; reflexivity|exact T].
  - destruct (IH H) as [I T']. split; [right; exact I|exact T'].
Qed.

Lemma yielded_when_all_bound (pe : pevent) (end_time : Z)
    (rs : list pevent_record) :
  (forall r, In r rs -> Trace.bound_event pe r <> None) ->
  map Event._record (Trace.yielded pe end_time rs) = Trace.within end_time rs.
Proof.
  induction rs as [|x rs IH]; intros H; cbn [Trace.yielded Trace.within];
    [reflexivity|].
  destruct (Trace.bound_event pe x) as [e|] eqn:B.
  - destruct ((end_time >? 0) && (rec_ts x >? end_time)); [reflexivity|].
    cbn [map]. destruct (bound_event_ts _ _ B) as (_ & -> & _).
    rewrite IH; [reflexivity|]. intros r Hr. apply H. right. exact Hr.
  - exfalso. apply (H x); [left; reflexivity|exact B].
Qed.

Lemma skipn_incl {A : Type} (n : nat) (l : list A) (x : A) :
  In x (skipn n l) -> In x l.
Proof.
  intros H. rewrite <- (firstn_skipn n l). apply in_or_app. right. exact H.
Qed.

Lemma cpu_stream_incl (h : handle) (c : Z) (r : pevent_record) :
  In r (cpu_stream h c) -> exists s, In s (h_streams h) /\ In r s.
Proof.
  unfold cpu_stream. destruct (c <? 0); [intros []|].
  intros H. destruct (nth_in_or_default (Z.to_nat c) (h_streams h) []) as [I|E].
  - eauto.
  - rewrite E in H. destruct H.
Qed.

Lemma from_timestamp_incl (h : handle) (c t : Z) (r : pevent_record) :
  In r (Trace.from_timestamp h c t) ->
  exists s, In s (h_streams h) /\ In r s.
Proof.
  intros H. apply cpu_stream_incl with c. eapply skipn_incl. exact H.
Qed.

Lemma map_flat_map {A B C : Type} (f : B -> C) (g : A -> list B)
    (l : list A) :
  map f (flat_map g l) = flat_map (fun a => map f (g a)) l.
Proof.
  induction l as [|a l IH]; [reflexivity|].
  cbn [flat_map]. rewrite map_app, IH. reflexivity.
Qed.

Lemma from_timestamp_same_file (h h' : handle) (c t : Z) :
  h_file h' = h_file h ->
  Trace.from_timestamp h' c t = Trace.from_timestamp h c t.
Proof.
  intros F. unfold Trace.from_timestamp.
  rewrite (cpu_stream_same_file _ _ c F). reflexivity.
Qed.

(** X5: [events], consumed to its end on a session as [__init__] sets it
    up (with fuel beyond the length of every stream), always gives its
    result.  It visits the selected CPUs in ascending order; for each it
    yields the Events of the records from the first one at or after
    [start_time], in stream order, and stops at the end of the stream, at
    the first record that gives no Event, or, when [end_time > 0], at the
    first record after [end_time].  No yielded Event is after a positive
    [end_time], and only cursors have changed afterwards. *)
Theorem events_yield_stream_prefixes (fuel : nat)
    (target_cpu start_time end_time : Z) (self : Trace.t) :
  Trace.well_formed self ->
  Forall (fun s => (List.length s < fuel)%nat)
         (h_streams (Trace._handle self)) ->
  exists evs self' calls,
    Trace.events fuel target_cpu start_time end_time self
    = (Return (Some evs), self', calls)
    /\ evs = flat_map
               (fun c => Trace.yielded (Trace._pevent self) end_time
                           (Trace.from_timestamp (Trace._handle self)
                              c start_time))
               (Trace.selected (Trace.cpus self) target_cpu)
    /\ Forall (fun e => end_time > 0 -> Event.ts e <= end_time) evs
    /\ Trace.same_capture self self'.
Proof.
  intros W Hf.
  destruct (@events_yields L fuel target_cpu start_time end_time self W Hf)
    as (self' & calls & R & S').
  do 3 eexists. split; [exact R|]. split; [reflexivity|]. split; [|exact S'].
  apply Forall_flat_map. apply Forall_forall. intros c _.
  apply yielded_within_end_time.
Qed.

(** X6: [records], consumed to its end on such a session, yields for each
    selected CPU, in ascending CPU order, the records of that CPU's stream
    from the first one at or after [start_time], in stream order, up to the
    end of the stream or, when [end_time > 0], to the first record after
    [end_time]; a record of unknown type does not stop it.  No yielded
    record is after a positive [end_time], and only cursors have changed
    afterwards. *)
Theorem records_yield_stream_sections (fuel : nat)
    (target_cpu start_time end_time : Z) (self : Trace.t) :
  Trace.well_formed self ->
  Forall (fun s => (List.length s < fuel)%nat)
         (h_streams (Trace._handle self)) ->
  exists recs self' calls,
    Trace.records fuel target_cpu start_time end_time self
    = (Return (Some recs), self', calls)
    /\ recs = flat_map
                (fun c => Trace.within end_time
                            (Trace.from_timestamp (Trace._handle self)
                               c start_time))
                (Trace.selected (Trace.cpus self) target_cpu)
    /\ Forall (fun r => end_time > 0 -> rec_ts r <= end_time) recs
    /\ Trace.same_capture self self'.
Proof.
  intros W Hf.
  destruct (@records_run fuel target_cpu start_time end_time self W Hf)
    as (self' & calls & R & S').
  do 3 eexists. split; [exact R|]. split; [reflexivity|]. split; [|exact S'].
  apply Forall_flat_map. apply Forall_forall. intros c _.
  apply within_end_time.
Qed.

(** X7: on a capture where every record gives an Event, [events] and
    [records] called with the same arguments go through the same records:
    the records of the Events that [events] yields are the records that
    [records] yields. *)
Theorem events_follow_records_when_all_bound (fuel : nat)
    (target_cpu start_time end_time : Z) (self : Trace.t) :
  Trace.well_formed self ->
  Forall (fun s => (List.length s < fuel)%nat)
         (h_streams (Trace._handle self)) ->
  (forall s r, In s (h_streams (Trace._handle self)) -> In r s ->
     Trace.bound_event (Trace._pevent self) r <> None) ->
  result_map (option_map (map Event._record))
             (value_of (Trace.events fuel target_cpu start_time end_time self))
  = value_of (Trace.records fuel target_cpu start_time end_time self).
Proof.
  intros W Hf B.
  destruct (@events_yields L fuel target_cpu start_time end_time self W Hf)
    as (s1 & l1 & R1 & _).
  destruct (@records_run fuel target_cpu start_time end_time self W Hf)
    as (s2 & l2 & R2 & _).
  rewrite R1, R2. cbn. rewrite map_flat_map. do 2 f_equal.
  apply flat_map_ext. intros c. apply yielded_when_all_bound.
  intros r Hr. destruct (from_timestamp_incl _ _ _ _ Hr) as (s & Hs & Hrs).
  eapply B; eassumption.
Qed.

End Generators.

(** ** Trace: what the generators cover, and the cursors *)

Section Coverage.
Context {L : PEventLib}.

Lemma seek_index_at_start (t : Z) (s : list pevent_record) :
  (forall r, In r s -> t <= rec_ts r) -> seek_index t s = 0%nat.
Proof.
  destruct s as [|r s]; intros H; [reflexivity|]. cbn.
  replace (t <=? rec_ts r) with true; [reflexivity|].
  symmetry. apply Z.leb_le. apply H. left. reflexivity.
Qed.

Lemma streams_by_cpu (h : handle) :
  map (cpu_stream h) (py_range (tracecmd_cpus h)) = h_streams h.
Proof.
  unfold py_range, tracecmd_cpus. rewrite Nat2Z.id, map_map.
  apply nth_ext with (d := cpu_stream h 0) (d' := []).
  - rewrite length_map, length_seq. reflexivity.
  - intros n Hn. rewrite length_map, length_seq in Hn.
    rewrite (nth_indep _ _ (cpu_stream h (Z.of_nat 0)))
      by (rewrite length_map, length_seq; exact Hn).
    rewrite (map_nth (fun i => cpu_stream h (Z.of_nat i))).
    rewrite seq_nth by exact Hn. cbn [plus].
    unfold cpu_stream.
    replace (Z.of_nat n <? 0) with false by (symmetry; apply Z.ltb_ge; lia).
    rewrite Nat2Z.id. reflexivity.
Qed.

(** X8: with the "all" selector, no bound on the end ([end_time <= 0])
    and a [start_time] that no record precedes, [records] yields every
    record of the capture: the streams of CPU 0, 1, ... one after the
    other. *)
Theorem records_enumerate_capture (fuel : nat) (start_time end_time : Z)
    (self : Trace.t) :
  Trace.well_formed self ->
  Forall (fun s => (List.length s < fuel)%nat)
         (h_streams (Trace._handle self)) ->
  end_time <= 0 ->
  (forall s r, In s (h_streams (Trace._handle self)) -> In r s ->
     start_time <= rec_ts r) ->
  value_of (Trace.records fuel (-1) start_time end_time self)
  = Return (Some (List.concat (h_streams (Trace._handle self)))).
Proof.
  intros W Hf He Hs.
  destruct (@records_run L fuel (-1) start_time end_time self W Hf)
    as (s2 & l2 & R2 & _).
  rewrite R2. cbn. do 2 f_equal.
  rewrite selected_all, flat_map_concat_map. f_equal.
  destruct W as [W1 _]. rewrite W1.
  etransitivity; [|apply streams_by_cpu].
  apply map_ext. intros c. rewrite within_unbounded by exact He.
  unfold Trace.from_timestamp. rewrite seek_index_at_start; [reflexivity|].
  intros r Hr. destruct (cpu_stream_incl _ _ _ Hr) as (s & I1 & I2).
  eapply Hs; eassumption.
Qed.

Lemma seek_of_sorted (t : Z) (s : list pevent_record) :
  StronglySorted (fun a b => rec_ts a <= rec_ts b) s ->
  Forall (fun r => t <= rec_ts r) (skipn (seek_index t s) s).
Proof.
  induction 1 as [|r s Hs IH Hr]; [constructor|].
  cbn [seek_index]. destruct (t <=? rec_ts r) eqn:E.
  - cbn [skipn]. apply Z.leb_le in E. constructor; [exact E|].
    eapply Forall_impl; [|exact Hr]. cbn. intros a Ha. lia.
  - cbn [skipn]. exact IH.
Qed.

Lemma from_timestamp_of_sorted (h : handle) (c t : Z) :
  (forall s, In s (h_streams h) ->
     StronglySorted (fun a b => rec_ts a <= rec_ts b) s) ->
  Forall (fun r => t <= rec_ts r) (Trace.from_timestamp h c t).
Proof.
  intros H. unfold Trace.from_timestamp. apply seek_of_sorted.
  unfold cpu_stream. destruct (c <? 0); [constructor|].
  destruct (nth_in_or_default (Z.to_nat c) (h_streams h) []) as [I|E].
  - apply H. exact I.
  - rewrite E. constructor.
Qed.

(** X9: on a capture whose streams are each ordered by timestamp, every
    record that [records] yields and every Event that [events] yields has
    its timestamp at or after [start_time], and at or before [end_time]
    when [end_time > 0]. *)
Theorem generators_stay_in_time_window (fuel : nat)
    (target_cpu start_time end_time : Z) (self : Trace.t) :
  Trace.well_formed self ->
  Forall (fun s => (List.length s < fuel)%nat)
         (h_streams (Trace._handle self)) ->
  (forall s, In s (h_streams (Trace._handle self)) ->
     StronglySorted (fun a b => rec_ts a <= rec_ts b) s) ->
  (exists recs,
     value_of (Trace.records fuel target_cpu start_time end_time self)
     = Return (Some recs)
     /\ Forall (fun r => start_time <= rec_ts r
                         /\ (end_time > 0 -> rec_ts r <= end_time)) recs)
  /\ (exists evs,
        value_of (Trace.events fuel target_cpu start_time end_time self)
        = Return (Some evs)
        /\ Forall (fun e => start_time <= Event.ts e
                            /\ (end_time > 0 -> Event.ts e <= end_time)) evs).
Proof.
  intros W Hf Hs. split.
  - destruct (@records_run L fuel target_cpu start_time end_time self W Hf)
      as (s2 & l2 & R2 & _).
    rewrite R2. eexists. split; [reflexivity|].
    apply Forall_flat_map. apply Forall_forall. intros c _.
    apply Forall_forall. intros r Hr. split.
    + pose proof (from_timestamp_of_sorted (Trace._handle self) c start_time Hs)
        as F.
      rewrite Forall_forall in F. apply F. eapply within_incl. exact Hr.
    + pose proof (within_end_time end_time
                    (Trace.from_timestamp (Trace._handle self) c start_time))
        as F.
      rewrite Forall_forall in F. apply F. exact Hr.
  - destruct (@events_yields L fuel target_cpu start_time end_time self W Hf)
      as (s1 & l1 & R1 & _).
    rewrite R1. eexists. split; [reflexivity|].
    apply Forall_flat_map. apply Forall_forall. intros c _.
    apply Forall_forall. intros e He. split.
    + destruct (yielded_incl _ _ _ _ He) as [I T]. rewrite T.
      pose proof (from_timestamp_of_sorted (Trace._handle self) c start_time Hs)
        as F.
      rewrite Forall_forall in F. apply F. exact I.
    + pose proof (yielded_within_end_time (Trace._pevent self) end_time
                    (Trace.from_timestamp (Trace._handle self) c start_time))
        as F.
      rewrite Forall_forall in F. apply F. exact He.
Qed.

(** X10: both generators re-seek at each call, so what they yield does not
    depend on where the cursors were: on two sessions of the same capture
    that differ in their cursors only, [events] yields the same Events and
    [records] the same records.  In particular a second run right after
    the first yields the same again. *)
Theorem generators_ignore_cursor_positions (fuel : nat)
    (target_cpu start_time end_time : Z) (self self' : Trace.t) :
  Trace.well_formed self ->
  Forall (fun s => (List.length s < fuel)%nat)
         (h_streams (Trace._handle self)) ->
  Trace.same_capture self self' ->
  value_of (Trace.events fuel target_cpu start_time end_time self')
  = value_of (Trace.events fuel target_cpu start_time end_time self)
  /\ value_of (Trace.records fuel target_cpu start_time end_time self')
     = value_of (Trace.records fuel target_cpu start_time end_time self)
  /\ value_of (Trace.events fuel target_cpu start_time end_time
                 (state_of (Trace.events fuel target_cpu start_time end_time
                              self)))
     = value_of (Trace.events fuel target_cpu start_time end_time self).
Proof.
  intros W Hf.
  assert (G : forall s', Trace.same_capture self s' ->
    value_of (Trace.events fuel target_cpu start_time end_time s')
    = value_of (Trace.events fuel target_cpu start_time end_time self)
    /\ value_of (Trace.records fuel target_cpu start_time end_time s')
       = value_of (Trace.records fuel target_cpu start_time end_time self)).
  { intros s' (F & P & C & _ & _ & W').
    assert (Hf' : Forall (fun s => (List.length s < fuel)%nat)
                         (h_streams (Trace._handle s'))).
    { unfold h_streams in *. rewrite F. exact Hf. }
    destruct (@events_yields L fuel target_cpu start_time end_time self W Hf)
      as (s1 & l1 & R1 & _).
    destruct (@events_yields L fuel target_cpu start_time end_time s' W' Hf')
      as (s1' & l1' & R1' & _).
    destruct (@records_run L fuel target_cpu start_time end_time self W Hf)
      as (s2 & l2 & R2 & _).
    destruct (@records_run L fuel target_cpu start_time end_time s' W' Hf')
      as (s2' & l2' & R2' & _).
    rewrite R1, R1', R2, R2', P, C. cbn. split; do 2 f_equal;
      apply flat_map_ext; intros c;
      rewrite (from_timestamp_same_file _ _ c start_time F); reflexivity. }
  intros S'. destruct (G self' S') as [G1 G2].
  split; [exact G1|]. split; [exact G2|].
  destruct (@events_yields L fuel target_cpu start_time end_time self W Hf)
    as (s1 & l1 & R1 & S1).
  apply G. rewrite R1. exact S1.
Qed.

Lemma events_for_unselected (fuel : nat) (cs : list Z)
    (target_cpu start_time end_time : Z) (self : Trace.t) :
  target_cpu <> -1 -> ~ In target_cpu cs ->
  Trace.events_for fuel cs target_cpu start_time end_time self
  = (Return (Some []), self, []).
Proof.
  intros H1. induction cs as [|c cs IH]; intros H2; [reflexivity|].
  cbn [Trace.events_for].
  replace (target_cpu =? c) with false
    by (symmetry; apply Z.eqb_neq; intros ->; apply H2; left; reflexivity).
  replace (target_cpu =? -1) with false by (symmetry; apply Z.eqb_neq; exact H1).
  cbn [orb]. unfold bind at 1. unfold ret at 1. unfold bind at 1.
  rewrite IH by (intros I; apply H2; right; exact I). reflexivity.
Qed.

Lemma records_for_unselected (fuel : nat) (cs : list Z)
    (target_cpu start_time end_time : Z) (self : Trace.t) :
  target_cpu <> -1 -> ~ In target_cpu cs ->
  Trace.records_for fuel cs target_cpu start_time end_time self
  = (Return (Some []), self, []).
Proof.
  intros H1. induction cs as [|c cs IH]; intros H2; [reflexivity|].
  cbn [Trace.records_for].
  replace (target_cpu =? c) with false
    by (symmetry; apply Z.eqb_neq; intros ->; apply H2; left; reflexivity).
  replace (target_cpu =? -1) with false by (symmetry; apply Z.eqb_neq; exact H1).
  cbn [orb]. unfold bind at 1. unfold ret at 1. unfold bind at 1.
  rewrite IH by (intros I; apply H2; right; exact I). reflexivity.
Qed.

(** X11: a selector that is neither -1 nor the index of a CPU selects
    nothing: [events] and [records] yield nothing, make no native call (no
    cursor is moved) and leave the session as it was. *)
Theorem generators_yield_nothing_for_unknown_cpu (fuel : nat)
    (target_cpu start_time end_time : Z) (self : Trace.t) :
  target_cpu <> -1 ->
  ~ (0 <= target_cpu < Trace.cpus self) ->
  Trace.events fuel target_cpu start_time end_time self
  = (Return (Some []), self, [])
  /\ Trace.records fuel target_cpu start_time end_time self
     = (Return (Some []), self, []).
Proof.
  intros H1 H2.
  assert (N : ~ In target_cpu (py_range (Trace.cpus self)))
    by (intros I; apply H2; apply py_range_spec; exact I).
  unfold Trace.events, Trace.records. unfold bind, gets.
  rewrite events_for_unselected, records_for_unselected by assumption.
  split; reflexivity.
Qed.

End Coverage.

(** ** Trace: cursors, single reads and the session invariant *)

Section Cursors.
Context {L : PEventLib}.

Lemma list_set_nth_other {A : Type} (l : list A) (i j : nat) (v d : A) :
  i <> j -> nth j (list_set l i v) d = nth j l d.
Proof.
  revert i j. induction l as [|x l IH]; intros [|i] [|j] H; simpl;
    try reflexivity; try congruence.
  apply IH. congruence.
Qed.

Lemma rewind_out_of_range (c start_time : Z) (self : Trace.t) :
  ~ (0 <= c < Trace.cpus self) ->
  Trace.rewind c start_time self
  = (Return tt,
     Trace.set__handle
       (tracecmd_set_all_cpus_to_timestamp (Trace._handle self) start_time)
       self,
     [tracecmd_set_all_cpus_to_timestamp_call start_time]).
Proof.
  intros H. unfold Trace.rewind. py_unfold.
  replace (existsb (Z.eqb c) (py_range (Trace.cpus self))) with false.
  - reflexivity.
  - symmetry. apply not_true_is_false. intros E.
    apply existsb_exists in E. destruct E as (x & I & E).
    apply Z.eqb_eq in E. subst x. apply H. apply py_range_spec. exact I.
Qed.

(** X12: [rewind] with the index of a CPU moves that CPU's cursor to the
    first record at or after [start_time] and leaves every other cursor
    where it was; with any other selector, -1 or not, it moves the cursor
    of every CPU. *)
Theorem rewind_moves_one_cursor_or_all (c start_time : Z) (self : Trace.t) :
  Trace.well_formed self ->
  let after := Trace._handle (state_of (Trace.rewind c start_time self)) in
  (0 <= c < Trace.cpus self ->
     cpu_cursor after c
     = seek_index start_time (cpu_stream (Trace._handle self) c)
     /\ (forall c', c' <> c ->
           cpu_cursor after c' = cpu_cursor (Trace._handle self) c')
     /\ calls_of (Trace.rewind c start_time self)
        = [tracecmd_set_cpu_to_timestamp_call c start_time])
  /\ (~ (0 <= c < Trace.cpus self) ->
        (forall c',
           cpu_cursor after c'
           = seek_index start_time (cpu_stream (Trace._handle self) c'))
        /\ calls_of (Trace.rewind c start_time self)
           = [tracecmd_set_all_cpus_to_timestamp_call start_time]).
Proof.
  intros W after. split; intros H.
  - subst after. rewrite (@rewind_in_range L c start_time self H).
    cbn [state_of calls_of fst snd Trace._handle Trace.set__handle].
    split; [|split; [|reflexivity]].
    + apply set_cursor_cursor; [lia|]. apply in_range_has_cursor; assumption.
    + intros c' N. unfold cpu_cursor, set_cursor.
      replace (c <? 0) with false by (symmetry; apply Z.ltb_ge; lia).
      destruct (c' <? 0) eqn:E; [reflexivity|]. cbn [h_cursors].
      apply list_set_nth_other. apply Z.ltb_ge in E. lia.
  - subst after. rewrite (@rewind_out_of_range c start_time self H).
    cbn [state_of calls_of fst snd Trace._handle Trace.set__handle].
    split; [|reflexivity].
    intros c'. unfold cpu_cursor, cpu_stream,
      tracecmd_set_all_cpus_to_timestamp. cbn [h_cursors].
    destruct (c' <? 0); [reflexivity|].
    change (h_streams
              {| h_file := h_file (Trace._handle self);
                 h_pevent := h_pevent (Trace._handle self);
                 h_cursors := map (seek_index start_time)
                                  (h_streams (Trace._handle self)) |})
      with (h_streams (Trace._handle self)).
    change 0%nat with (seek_index start_time []) at 1.
    apply map_nth.
Qed.

(** X13: a None from [read_event] is not the end of the stream.  When the
    record under the cursor gives no Event, [read_event] returns None and
    has consumed the record: the next [read_event] answers for the record
    after it.  At the end of the stream [read_event] returns None and the
    session is unchanged. *)
Theorem read_event_consumes_unbound_record (c : Z) (self : Trace.t) :
  Trace.well_formed self ->
  0 <= c < Trace.cpus self ->
  let stream := cpu_stream (Trace._handle self) c in
  let k := cpu_cursor (Trace._handle self) c in
  (forall r,
     nth_error stream k = Some r ->
     Trace.bound_event (Trace._pevent self) r = None ->
     let after := state_of (Trace.read_event c self) in
     value_of (Trace.read_event c self) = Return None
     /\ cpu_cursor (Trace._handle after) c = S k
     /\ value_of (Trace.read_event c after)
        = Return (match nth_error stream (S k) with
                  | Some r' => Trace.bound_event (Trace._pevent self) r'
                  | None => None
                  end))
  /\ (nth_error stream k = None ->
      Trace.read_event c self
      = (Return None, self, [tracecmd_read_data_call c])).
Proof.
  intros W Hc stream k. split.
  - intros r E B after. subst after. rewrite read_event_spec.
    fold stream k. rewrite E, B.
    cbn [state_of value_of fst snd].
    set (self1 := Trace.set__handle _ self).
    pose proof (well_formed_set_cursor c (S k) W) as S1. fold self1 in S1.
    assert (K : cpu_cursor (Trace._handle self1) c = S k).
    { apply set_cursor_cursor; [lia|]. apply in_range_has_cursor; assumption. }
    assert (F : cpu_stream (Trace._handle self1) c = stream).
    { apply cpu_stream_same_file. apply S1. }
    split; [reflexivity|]. split; [exact K|].
    rewrite read_event_spec, K, F.
    destruct S1 as (_ & -> & _).
    destruct (nth_error stream (S k)); reflexivity.
  - intros E. rewrite read_event_spec. fold stream k. rewrite E. reflexivity.
Qed.

(** X14: [record_to_event] gives an Event exactly when there is a record,
    its type-id is not 0 and the catalog has a schema for the type-id, and
    the Event is then the one made of the record, the schema and the
    type-id.  In every other case, a type-id of 0 with a schema in the
    catalog included, it gives None.  It never raises or changes the
    session. *)
Theorem record_to_event_gives_event_iff (self : Trace.t)
    (record : option pevent_record) :
  (exists v, Trace.record_to_event record self = (Return v, self, []))
  /\ forall e,
       value_of (Trace.record_to_event record self) = Return (Some e)
       <-> exists rec fmt,
             record = Some rec
             /\ pevent_data_type (Trace._pevent self) rec <> 0
             /\ pevent_data_event_from_type (Trace._pevent self)
                  (pevent_data_type (Trace._pevent self) rec) = Some fmt
             /\ e = Event.__init__ (Trace._pevent self) rec fmt
                      (pevent_data_type (Trace._pevent self) rec).
Proof.
  destruct record as [rec|].
  - rewrite record_to_event_bound_event. split; [eauto|].
    intros e. cbn [value_of fst]. unfold Trace.bound_event. split.
    + destruct (pevent_data_event_from_type _ _) as [fmt|] eqn:F;
        [|discriminate].
      destruct (pevent_data_type _ rec =? 0) eqn:T; cbn; [discriminate|].
      intros H. exists rec, fmt. apply Z.eqb_neq in T.
      repeat split; auto. congruence.
    + intros (rec' & fmt & E & T & F & ->). injection E as <-.
      rewrite F. apply Z.eqb_neq in T. rewrite T. reflexivity.
  - split; [eexists; reflexivity|]. intros e. split; [discriminate|].
    intros (rec & fmt & E & _). discriminate.
Qed.




End Cursors.

(** ** Trace: the timestamp tables *)

Section Tables.
Context {L : PEventLib}.

Lemma fold_min_spec (r : list Z) (x : Z) :
  In (fold_left Z.min r x) (x :: r)
  /\ forall v, In v (x :: r) -> fold_left Z.min r x <= v.
Proof.
  revert x. induction r as [|y r IH]; intros x; cbn [fold_left].
  - split; [left; reflexivity|]. intros v [<-|[]]. lia.
  - destruct (IH (Z.min x y)) as [I B]. split.
    + destruct I as [E|I]; [|right; right; exact I].
      rewrite <- E.
      destruct (Z.min_spec x y) as [[_ M]|[_ M]]; rewrite M.
      * left. reflexivity.
      * right. left. reflexivity.
    + intros v [<-|[<-|Hv]].
      * specialize (B (Z.min x y) (or_introl eq_refl)). lia.
      * specialize (B (Z.min x y) (or_introl eq_refl)). lia.
      * apply B. right. exact Hv.
Qed.

Lemma fold_max_spec (r : list Z) (x : Z) :
  In (fold_left Z.max r x) (x :: r)
  /\ forall v, In v (x :: r) -> v <= fold_left Z.max r x.
Proof.
  revert x. induction r as [|y r IH]; intros x; cbn [fold_left].
  - split; [left; reflexivity|]. intros v [<-|[]]. lia.
  - destruct (IH (Z.max x y)) as [I B]. split.
    + destruct I as [E|I]; [|right; right; exact I].
      rewrite <- E.
      destruct (Z.max_spec x y) as [[_ M]|[_ M]]; rewrite M.
      * right. left. reflexivity.
      * left. reflexivity.
    + intros v [<-|[<-|Hv]].
      * specialize (B (Z.max x y) (or_introl eq_refl)). lia.
      * specialize (B (Z.max x y) (or_introl eq_refl)). lia.
      * apply B. right. exact Hv.
Qed.

Lemma py_min_spec (l : list Z) (m : Z) :
  py_min l = Some m -> In m l /\ forall v, In v l -> m <= v.
Proof.
  destruct l as [|x r]; [discriminate|]. cbn. intros H. injection H as <-.
  apply fold_min_spec.
Qed.

Lemma py_max_spec (l : list Z) (m : Z) :
  py_max l = Some m -> In m l /\ forall v, In v l -> v <= m.
Proof.
  destruct l as [|x r]; [discriminate|]. cbn. intros H. injection H as <-.
  apply fold_max_spec.
Qed.

Lemma positive_spec (l : list Z) (v : Z) :
  In v (Trace.positive l) <-> In v l /\ v > 0.
Proof.
  unfold Trace.positive. rewrite filter_In. rewrite Z.gtb_ltb, Z.ltb_lt.
  split; intros [A B]; split; auto; lia.
Qed.

Lemma no_positive_iff (l : list Z) :
  Trace.positive l = [] <-> forall v, In v l -> v <= 0.
Proof.
  split.
  - intros E v Hv. destruct (Z_le_dec v 0) as [|N]; [assumption|].
    assert (I : In v (Trace.positive l))
      by (apply positive_spec; split; [assumption|lia]).
    rewrite E in I. destruct I.
  - intros H. destruct (Trace.positive l) as [|v r] eqn:E; [reflexivity|].
    assert (I : In v (Trace.positive l)) by (rewrite E; left; reflexivity).
    apply positive_spec in I. destruct I as [I P].
    specialize (H v I). lia.
Qed.

Lemma py_min_none (l : list Z) : py_min l = None <-> l = [].
Proof. destruct l; split; intros H; try reflexivity; discriminate. Qed.

Lemma py_max_none (l : list Z) : py_max l = None <-> l = [].
Proof. destruct l; split; intros H; try reflexivity; discriminate. Qed.

Lemma py_index_raises_IndexError_only (l : list Z) (i : Z) (msg : string) :
  py_index l i <> Raise (ValueError msg).
Proof.
  unfold py_index. destruct (_ && _); discriminate.
Qed.

Lemma py_index_from_start (l : list Z) (i : Z) :
  0 <= i < Z.of_nat (List.length l) ->
  py_index l i = Return (nth (Z.to_nat i) l 0).
Proof.
  intros H. unfold py_index.
  replace (i <? 0) with false by (symmetry; apply Z.ltb_ge; lia).
  replace (0 <=? i) with true by (symmetry; apply Z.leb_le; lia).
  replace (i <? Z.of_nat (List.length l)) with true
    by (symmetry; apply Z.ltb_lt; lia).
  reflexivity.
Qed.

Lemma py_index_from_end (l : list Z) (i : Z) :
  - Z.of_nat (List.length l) <= i < 0 ->
  py_index l i
  = Return (nth (Z.to_nat (i + Z.of_nat (List.length l))) l 0).
Proof.
  intros H. unfold py_index.
  replace (i <? 0) with true by (symmetry; apply Z.ltb_lt; lia).
  replace (0 <=? i + Z.of_nat (List.length l)) with true
    by (symmetry; apply Z.leb_le; lia).
  replace (i + Z.of_nat (List.length l) <? Z.of_nat (List.length l)) with true
    by (symmetry; apply Z.ltb_lt; lia).
  reflexivity.
Qed.

Lemma py_index_out_of_range (l : list Z) (i : Z) :
  Z.of_nat (List.length l) <= i \/ i < - Z.of_nat (List.length l) ->
  py_index l i = Raise (IndexError "list index out of range").
Proof.
  intros H. unfold py_index. destruct (i <? 0) eqn:E.
  - apply Z.ltb_lt in E.
    destruct (0 <=? i + Z.of_nat (List.length l)) eqn:E1; [|reflexivity].
    apply Z.leb_le in E1. lia.
  - apply Z.ltb_ge in E.
    replace (i <? Z.of_nat (List.length l)) with false
      by (symmetry; apply Z.ltb_ge; lia).
    rewrite andb_false_r. reflexivity.
Qed.

Lemma py_range_length (n : Z) : List.length (py_range n) = Z.to_nat n.
Proof.
  unfold py_range. rewrite length_map, length_seq. reflexivity.
Qed.

Lemma nth_map_py_range (f : Z -> Z) (n c : Z) :
  0 <= c < n -> nth (Z.to_nat c) (map f (py_range n)) 0 = f c.
Proof.
  intros H. unfold py_range. rewrite map_map.
  rewrite (nth_indep _ 0 (f (Z.of_nat 0)))
    by (rewrite length_map, length_seq; lia).
  rewrite (map_nth (fun i => f (Z.of_nat i))).
  rewrite seq_nth by lia. cbn [plus]. rewrite Z2Nat.id by lia. reflexivity.
Qed.

Lemma table_lookups (f : Z -> Z) (n m : Z) :
  0 <= n ->
  let tbl := map f (py_range n) ++ [m] in
  py_index tbl (-1) = Return m
  /\ (forall c, 0 <= c < n -> py_index tbl c = Return (f c))
  /\ (forall c, n < c \/ c < - (n + 1) ->
        py_index tbl c = Raise (IndexError "list index out of range")).
Proof.
  intros Hn tbl.
  assert (Len : Z.of_nat (List.length tbl) = n + 1).
  { subst tbl. rewrite length_app, length_map, py_range_length. cbn. lia. }
  split; [|split].
  - rewrite py_index_from_end by lia. rewrite Len.
    subst tbl. rewrite app_nth2 by (rewrite length_map, py_range_length; lia).
    rewrite length_map, py_range_length.
    replace (Z.to_nat (-1 + (n + 1)) - Z.to_nat n)%nat with 0%nat by lia.
    reflexivity.
  - intros c Hc. rewrite py_index_from_start by lia.
    subst tbl. rewrite app_nth1 by (rewrite length_map, py_range_length; lia).
    f_equal. apply nth_map_py_range. exact Hc.
  - intros c Hc. apply py_index_out_of_range. lia.
Qed.

(** X16: the first access to [start_time] raises ValueError exactly when
    no CPU has a first timestamp above 0, and the first access to
    [end_time] exactly when no CPU has a last timestamp above 0: a CPU
    whose first (last) record is at timestamp 0 counts like a CPU without
    records. *)
Theorem first_access_raises_iff_no_positive_entry (c : Z) (self : Trace.t) :
  (Trace._start_time self = None ->
     (value_of (Trace.start_time c self)
      = Raise (ValueError "min() arg is an empty sequence")
      <-> forall v, In v (Trace.first_timestamps self) -> v <= 0))
  /\ (Trace._end_time self = None ->
        (value_of (Trace.end_time c self)
         = Raise (ValueError "max() arg is an empty sequence")
         <-> forall v, In v (Trace.last_timestamps self) -> v <= 0)).
Proof.
  split; intros N.
  - rewrite (@start_time_first_access L c self N).
    rewrite <- no_positive_iff, <- py_min_none.
    destruct (py_min _) as [m|]; cbn [value_of fst].
    + split; [|discriminate]. intros H.
      exfalso. eapply py_index_raises_IndexError_only. exact H.
    + split; reflexivity.
  - rewrite (@end_time_first_access L c self N).
    rewrite <- no_positive_iff, <- py_max_none.
    destruct (py_max _) as [m|]; cbn [value_of fst].
    + split; [|discriminate]. intros H.
      exfalso. eapply py_index_raises_IndexError_only. exact H.
    + split; reflexivity.
Qed.

(** X17: when some CPU has a first timestamp above 0, the first access to
    [start_time] leaves the table of the per-CPU first timestamps followed
    by their least positive entry.  From then on the selector -1 gives that
    entry, the index of a CPU gives that CPU's first timestamp (0 for a CPU
    without records), and a selector beyond the table raises IndexError;
    none of these reads the file. *)
Theorem start_time_table_after_first_access (c : Z) (self : Trace.t) :
  Trace._start_time self = None ->
  (exists v, In v (Trace.first_timestamps self) /\ v > 0) ->
  let after := state_of (Trace.start_time c self) in
  exists m,
    Trace._start_time after = Some (Trace.first_timestamps self ++ [m])
    /\ In m (Trace.first_timestamps self) /\ m > 0
    /\ (forall v, In v (Trace.first_timestamps self) -> v > 0 -> m <= v)
    /\ Trace.start_time (-1) after = (Return m, after, [])
    /\ (forall cpu, 0 <= cpu < Trace.cpus self ->
          Trace.start_time cpu after
          = (Return (Trace.ts_or_zero
                       (tracecmd_read_cpu_first (Trace._handle self) cpu)),
             after, []))
    /\ (forall sel, Trace.cpus self < sel \/ sel < - (Trace.cpus self + 1) ->
          Trace.start_time sel after
          = (Raise (IndexError "list index out of range"), after, [])).
Proof.
  intros N (v0 & I0 & P0) after. subst after.
  rewrite (@start_time_first_access L c self N).
  destruct (py_min _) as [m|] eqn:M.
  - cbn [state_of fst snd]. exists m.
    destruct (py_min_spec _ M) as [Im Bm].
    apply positive_spec in Im. destruct Im as [Im Pm].
    assert (Hn : 0 <= Trace.cpus self).
    { unfold Trace.first_timestamps in I0. apply in_map_iff in I0.
      destruct I0 as (x & _ & Ix). apply py_range_spec in Ix. lia. }
    destruct (table_lookups
                (fun cpu => Trace.ts_or_zero
                              (tracecmd_read_cpu_first (Trace._handle self) cpu))
                m Hn) as (T1 & T2 & T3).
    fold (Trace.first_timestamps self) in T1, T2, T3.
    split; [reflexivity|]. split; [exact Im|]. split; [exact Pm|].
    split; [intros v Iv Pv; apply Bm; apply positive_spec; auto|].
    set (after := Trace.set__start_time _ self).
    assert (C : forall sel, Trace.start_time sel after
                = (py_index (Trace.first_timestamps self ++ [m]) sel,
                   after, []))
      by (intros sel; apply start_time_cached_access; reflexivity).
    split; [rewrite C, T1; reflexivity|]. split.
    + intros cpu Hc. rewrite C, T2 by exact Hc. reflexivity.
    + intros sel Hs. rewrite C, T3 by exact Hs. reflexivity.
  - exfalso. apply py_min_none in M.
    assert (I : In v0 (Trace.positive (Trace.first_timestamps self)))
      by (apply positive_spec; auto).
    rewrite M in I. destruct I.
Qed.

(** X18: when some CPU has a last timestamp above 0, the first access to
    [end_time] leaves the table of the per-CPU last timestamps followed by
    their greatest entry.  From then on the selector -1 gives that entry,
    the index of a CPU gives that CPU's last timestamp, and a selector
    beyond the table raises IndexError; none of these reads the file. *)
Theorem end_time_table_after_first_access (c : Z) (self : Trace.t) :
  Trace._end_time self = None ->
  (exists v, In v (Trace.last_timestamps self) /\ v > 0) ->
  let after := state_of (Trace.end_time c self) in
  exists m,
    Trace._end_time after = Some (Trace.last_timestamps self ++ [m])
    /\ In m (Trace.last_timestamps self)
    /\ (forall v, In v (Trace.last_timestamps self) -> v <= m)
    /\ Trace.end_time (-1) after = (Return m, after, [])
    /\ (forall cpu, 0 <= cpu < Trace.cpus self ->
          Trace.end_time cpu after
          = (Return (Trace.ts_or_zero
                       (tracecmd_read_cpu_last (Trace._handle self) cpu)),
             after, []))
    /\ (forall sel, Trace.cpus self < sel \/ sel < - (Trace.cpus self + 1) ->
          Trace.end_time sel after
          = (Raise (IndexError "list index out of range"), after, [])).
Proof.
  intros N (v0 & I0 & P0) after. subst after.
  rewrite (@end_time_first_access L c self N).
  destruct (py_max _) as [m|] eqn:M.
  - cbn [state_of fst snd]. exists m.
    destruct (py_max_spec _ M) as [Im Bm].
    apply positive_spec in Im. destruct Im as [Im Pm].
    assert (Hn : 0 <= Trace.cpus self).
    { unfold Trace.last_timestamps in I0. apply in_map_iff in I0.
      destruct I0 as (x & _ & Ix). apply py_range_spec in Ix. lia. }
    destruct (table_lookups
                (fun cpu => Trace.ts_or_zero
                              (tracecmd_read_cpu_last (Trace._handle self) cpu))
                m Hn) as (T1 & T2 & T3).
    fold (Trace.last_timestamps self) in T1, T2, T3.
    split; [reflexivity|]. split; [exact Im|].
    split.
    { intros v Iv. destruct (Z_le_dec v 0) as [|Pv]; [lia|].
      apply Bm. apply positive_spec. split; [exact Iv|lia]. }
    set (after := Trace.set__end_time _ self).
    assert (C : forall sel, Trace.end_time sel after
                = (py_index (Trace.last_timestamps self ++ [m]) sel,
                   after, []))
      by (intros sel; apply end_time_cached_access; reflexivity).
    split; [rewrite C, T1; reflexivity|]. split.
    + intros cpu Hc. rewrite C, T2 by exact Hc. reflexivity.
    + intros sel Hs. rewrite C, T3 by exact Hs. reflexivity.
  - exfalso. apply py_max_none in M.
    assert (I : In v0 (Trace.positive (Trace.last_timestamps self)))
      by (apply positive_spec; auto).
    rewrite M in I. destruct I.
Qed.

(** X19: the ValueError of a first access is not repeated.  After a first
    [t.start_time] that raised it, the slot holds the per-CPU entries
    without a session-wide one, so the next [t.start_time] gives the entry
    of the last CPU when there is a CPU, and raises IndexError when there
    is none; it does not read the file again.  Likewise for
    [t.end_time]. *)
Theorem access_after_ValueError (self : Trace.t) :
  (Trace._start_time self = None ->
   (forall v, In v (Trace.first_timestamps self) -> v <= 0) ->
   let after := state_of (Trace.start_time_property self) in
   (1 <= Trace.cpus self ->
      Trace.start_time_property after
      = (Return (Trace.ts_or_zero
                   (tracecmd_read_cpu_first (Trace._handle self)
                      (Trace.cpus self - 1))), after, []))
   /\ (Trace.cpus self <= 0 ->
         Trace.start_time_property after
         = (Raise (IndexError "list index out of range"), after, [])))
  /\ (Trace._end_time self = None ->
      (forall v, In v (Trace.last_timestamps self) -> v <= 0) ->
      let after := state_of (Trace.end_time_property self) in
      (1 <= Trace.cpus self ->
         Trace.end_time_property after
         = (Return (Trace.ts_or_zero
                      (tracecmd_read_cpu_last (Trace._handle self)
                         (Trace.cpus self - 1))), after, []))
      /\ (Trace.cpus self <= 0 ->
            Trace.end_time_property after
            = (Raise (IndexError "list index out of range"), after, []))).
Proof.
  split; intros N Z0 after; subst after.
  - unfold Trace.start_time_property.
    rewrite (@start_time_first_access L (-1) self N).
    apply no_positive_iff in Z0. rewrite Z0. cbn [py_min state_of fst snd].
    set (after := Trace.set__start_time _ self).
    assert (C : Trace.start_time (-1) after
                = (py_index (Trace.first_timestamps self) (-1), after, []))
      by (apply start_time_cached_access; reflexivity).
    rewrite C. unfold Trace.first_timestamps. split; intros H.
    + rewrite py_index_from_end
        by (rewrite length_map, py_range_length; lia).
      rewrite length_map, py_range_length.
      replace (-1 + Z.of_nat (Z.to_nat (Trace.cpus self)))
        with (Trace.cpus self - 1) by lia.
      rewrite nth_map_py_range by lia. reflexivity.
    + rewrite py_index_out_of_range
        by (rewrite length_map, py_range_length; lia).
      reflexivity.
  - unfold Trace.end_time_property.
    rewrite (@end_time_first_access L (-1) self N).
    apply no_positive_iff in Z0. rewrite Z0. cbn [py_max state_of fst snd].
    set (after := Trace.set__end_time _ self).
    assert (C : Trace.end_time (-1) after
                = (py_index (Trace.last_timestamps self) (-1), after, []))
      by (apply end_time_cached_access; reflexivity).
    rewrite C. unfold Trace.last_timestamps. split; intros H.
    + rewrite py_index_from_end
        by (rewrite length_map, py_range_length; lia).
      rewrite length_map, py_range_length.
      replace (-1 + Z.of_nat (Z.to_nat (Trace.cpus self)))
        with (Trace.cpus self - 1) by lia.
      rewrite nth_map_py_range by lia. reflexivity.
    + rewrite py_index_out_of_range
        by (rewrite length_map, py_range_length; lia).
      reflexivity.
Qed.

End Tables.

(** ** cached_property and PEvent *)

Section CachedPropertyFacts.
Variables (S V : Type) (class_name : string).

Lemma dict_get_pop (name : string) (d : list (string * V)) :
  CachedProperty.dict_get name (CachedProperty.dict_pop name d) = None.
Proof.
  unfold CachedProperty.dict_get, CachedProperty.dict_pop.
  induction d as [|[k v] d IH]; [reflexivity|]. cbn [filter fst].
  destruct (String.eqb k name) eqn:E; cbn [negb]; [exact IH|].
  cbn [find fst]. rewrite E. exact IH.
Qed.

Lemma dict_get_pop_other (name other : string) (d : list (string * V)) :
  other <> name ->
  CachedProperty.dict_get other (CachedProperty.dict_pop name d)
  = CachedProperty.dict_get other d.
Proof.
  intros N. unfold CachedProperty.dict_get, CachedProperty.dict_pop.
  induction d as [|[k v] d IH]; [reflexivity|]. cbn [filter fst find].
  destruct (String.eqb k name) eqn:E; cbn [negb].
  - apply String.eqb_eq in E. subst k.
    replace (String.eqb name other) with false
      by (symmetry; apply String.eqb_neq; congruence).
    exact IH.
  - cbn [find fst]. destruct (String.eqb k other); [reflexivity|exact IH].
Qed.

Lemma dict_get_set (name : string) (v : V) (d : list (string * V)) :
  CachedProperty.dict_get name (CachedProperty.dict_set name v d) = Some v.
Proof.
  unfold CachedProperty.dict_get, CachedProperty.dict_set. cbn [find fst].
  rewrite String.eqb_refl. reflexivity.
Qed.

Lemma dict_get_set_other (name other : string) (v : V)
    (d : list (string * V)) :
  other <> name ->
  CachedProperty.dict_get other (CachedProperty.dict_set name v d)
  = CachedProperty.dict_get other d.
Proof.
  intros N. unfold CachedProperty.dict_set.
  change (CachedProperty.dict_get other
            ((name, v) :: CachedProperty.dict_pop name d))
    with (option_map snd
            (if String.eqb name other then Some (name, v)
             else find (fun kv => String.eqb (fst kv) other)
                       (CachedProperty.dict_pop name d))).
  replace (String.eqb name other) with false
    by (symmetry; apply String.eqb_neq; congruence).
  apply dict_get_pop_other. exact N.
Qed.

Lemma get_served (func : PyX (CachedProperty.object S V) V) (name : string)
    (self : CachedProperty.object S V)
    (d : list (string * V)) (v : V) :
  CachedProperty.__cached_properties self = Some d ->
  CachedProperty.dict_get name d = Some v ->
  CachedProperty._get class_name func name self = (Returned v, self, []).
Proof.
  intros C G. unfold CachedProperty._get. rewrite C, G. reflexivity.
Qed.

Lemma get_missing (func : PyX (CachedProperty.object S V) V) (name : string)
    (self : CachedProperty.object S V) (d : list (string * V)) :
  CachedProperty.__cached_properties self = Some d ->
  CachedProperty.dict_get name d = None ->
  CachedProperty._get class_name func name self
  = CachedProperty._compute class_name func name self.
Proof.
  intros C G. unfold CachedProperty._get. rewrite C, G. reflexivity.
Qed.

Lemma get_first (func : PyX (CachedProperty.object S V) V) (name : string)
    (self : CachedProperty.object S V) :
  CachedProperty.__cached_properties self = None ->
  CachedProperty._get class_name func name self
  = CachedProperty._compute class_name func name
      (CachedProperty.set_cache (Some []) self).
Proof.
  intros C. unfold CachedProperty._get. rewrite C. reflexivity.
Qed.

(** What [_compute] does: it runs [func] and, when [func] returned and the
    dict is still there, stores the value. *)
Lemma compute_outcome (func : PyX (CachedProperty.object S V) V)
    (name : string) (self : CachedProperty.object S V) :
  CachedProperty._compute class_name func name self
  = match func self with
    | (Returned v, s1, l1) =>
        match CachedProperty.__cached_properties s1 with
        | Some d =>
            (Returned v,
             CachedProperty.set_cache
               (Some (CachedProperty.dict_set name v d)) s1, l1)
        | None => (Raised (CachedProperty.no_attribute class_name), s1, l1)
        end
    | (Raised e, s1, l1) => (Raised e, s1, l1)
    end.
Proof.
  unfold CachedProperty._compute, CachedProperty._store, bindx, retx.
  destruct (func self) as [[[v|e] s1] l1]; [|reflexivity].
  destruct (CachedProperty.__cached_properties s1);
    rewrite ?app_nil_r; reflexivity.
Qed.

(** X20: once a read of a cached property has returned a value, every
    later read returns that value without running the decorated function:
    whatever function the getter wraps, it makes no call and changes
    nothing. *)
Theorem cached_property_read_is_cached
    (func func' : PyX (CachedProperty.object S V) V)
    (name : string) (self : CachedProperty.object S V) (v : V) :
  value_of (CachedProperty._get class_name func name self) = Returned v ->
  let after := state_of (CachedProperty._get class_name func name self) in
  CachedProperty._get class_name func' name after = (Returned v, after, []).
Proof.
  intros H after. subst after.
  destruct (CachedProperty.__cached_properties self) as [d|] eqn:C.
  - destruct (CachedProperty.dict_get name d) as [v0|] eqn:G.
    + rewrite (get_served func name self C G) in *.
      cbn [value_of state_of fst snd] in *.
      injection H as <-. eapply get_served; eassumption.
    + rewrite (get_missing func name self C G) in *.
      rewrite compute_outcome in *.
      destruct (func self) as [[[v1|e] s1] l1]; [|discriminate].
      destruct (CachedProperty.__cached_properties s1) as [d1|];
        [|discriminate].
      cbn [value_of state_of fst snd] in *. injection H as <-.
      eapply get_served; [reflexivity|apply dict_get_set].
  - rewrite (get_first func name self C) in *.
    rewrite compute_outcome in *.
    destruct (func _) as [[[v1|e] s1] l1]; [|discriminate].
    destruct (CachedProperty.__cached_properties s1) as [d1|];
      [|discriminate].
    cbn [value_of state_of fst snd] in *. injection H as <-.
    eapply get_served; [reflexivity|apply dict_get_set].
Qed.

(** X21: deleting a cached property of an object on which no cached
    property was ever read raises AttributeError and changes nothing.  On
    an object that has the dict, deleting never fails, also when the
    property was never read: it forgets this property, so that the next
    read runs the function again, and keeps the values cached under every
    other name. *)
Theorem cached_property_delete (func : PyX (CachedProperty.object S V) V)
    (name : string) (self : CachedProperty.object S V) :
  (CachedProperty.__cached_properties self = None ->
     CachedProperty._del class_name name self
     = (Raised (CachedProperty.no_attribute class_name), self, []))
  /\ (forall d,
        CachedProperty.__cached_properties self = Some d ->
        let after := state_of (CachedProperty._del class_name name self) in
        CachedProperty._del class_name name self = (Returned tt, after, [])
        /\ CachedProperty.attrs after = CachedProperty.attrs self
        /\ CachedProperty._get class_name func name after
           = CachedProperty._compute class_name func name after
        /\ forall other func', other <> name ->
             forall v, CachedProperty.dict_get other d = Some v ->
               CachedProperty._get class_name func' other after
               = (Returned v, after, [])).
Proof.
  split.
  - intros C. unfold CachedProperty._del. rewrite C. reflexivity.
  - intros d C after. subst after. unfold CachedProperty._del. rewrite C.
    cbn [state_of fst snd]. split; [reflexivity|]. split; [reflexivity|].
    split.
    + unfold CachedProperty._get. cbn. rewrite dict_get_pop. reflexivity.
    + intros other func' N v G. eapply get_served; [reflexivity|].
      rewrite dict_get_pop_other by exact N. exact G.
Qed.

(** X22: cached properties of one object do not evict one another.  With
    a value cached under one name, reading a property of another name,
    whose function leaves the dict alone, keeps the first value cached,
    whether the second read hits the cache, computes, or raises. *)
Theorem cached_properties_are_kept_apart
    (func1 func2 : PyX (CachedProperty.object S V) V)
    (name1 name2 : string) (self : CachedProperty.object S V)
    (d : list (string * V)) (v1 : V) :
  name1 <> name2 ->
  CachedProperty.__cached_properties self = Some d ->
  CachedProperty.dict_get name1 d = Some v1 ->
  (forall s, CachedProperty.__cached_properties (state_of (func2 s))
             = CachedProperty.__cached_properties s) ->
  let after := state_of (CachedProperty._get class_name func2 name2 self) in
  CachedProperty._get class_name func1 name1 after = (Returned v1, after, []).
Proof.
  intros N C G K after. subst after.
  destruct (CachedProperty.dict_get name2 d) as [v2|] eqn:G2.
  - rewrite (get_served func2 name2 self C G2).
    cbn [state_of fst snd]. eapply get_served; eassumption.
  - rewrite (get_missing func2 name2 self C G2), compute_outcome.
    specialize (K self).
    destruct (func2 self) as [[[v2|e] s1] l1]; cbn in K.
    + rewrite K, C. cbn [state_of fst snd].
      eapply get_served; [reflexivity|].
      rewrite dict_get_set_other by exact N. exact G.
    + cbn [state_of fst snd].
      eapply get_served; [rewrite K; exact C|exact G].
Qed.

(** X23: a read that raised has cached nothing.  When the function leaves
    the dict alone and the read raises, the property is still not cached
    afterwards, so the next read runs the function again; but the dict
    exists from then on, so deleting the property no longer raises. *)
Theorem failed_read_is_not_cached
    (func : PyX (CachedProperty.object S V) V) (name : string)
    (self : CachedProperty.object S V) (e : py_exception) :
  (forall s, CachedProperty.__cached_properties (state_of (func s))
             = CachedProperty.__cached_properties s) ->
  value_of (CachedProperty._get class_name func name self) = Raised e ->
  let after := state_of (CachedProperty._get class_name func name self) in
  CachedProperty._get class_name func name after
  = CachedProperty._compute class_name func name after
  /\ exists after',
       CachedProperty._del class_name name after = (Returned tt, after', []).
Proof.
  intros K H after. subst after.
  destruct (CachedProperty.__cached_properties self) as [d|] eqn:C.
  - destruct (CachedProperty.dict_get name d) as [v0|] eqn:G.
    { rewrite (get_served func name self C G) in H. discriminate. }
    rewrite (get_missing func name self C G) in *.
    rewrite compute_outcome in *. pose proof (K self) as K1.
    destruct (func self) as [[[v1|e1] s1] l1]; cbn in K1.
    + rewrite K1, C in H. discriminate.
    + cbn [state_of fst snd]. split.
      * apply get_missing with d; [rewrite K1; exact C|exact G].
      * unfold CachedProperty._del. rewrite K1, C. eauto.
  - rewrite (get_first func name self C) in *.
    rewrite compute_outcome in *.
    pose proof (K (CachedProperty.set_cache (Some []) self)) as K1.
    destruct (func _) as [[[v1|e1] s1] l1]; cbn in K1.
    + rewrite K1 in H. discriminate.
    + cbn [state_of fst snd]. split.
      * apply get_missing with []; [exact K1|reflexivity].
      * unfold CachedProperty._del. rewrite K1. eauto.
Qed.

End CachedPropertyFacts.

Section PEventFacts.
Context {L : PEventLib}.
Variable pevent_is_file_bigendian : pevent -> Z.

(** X24: [file_endian] of a PEvent is ">" when
    [pevent_is_file_bigendian] answers nonzero for its handle and "<" when
    it answers 0, on the first read and on every later one; after a
    [del] the next read gives the same again.  A [del] before any read
    raises AttributeError. *)
Theorem file_endian_follows_byte_order (pe : pevent) :
  let fresh := PEvent.__init__ pe in
  let sign := if pevent_is_file_bigendian pe =? 0 then "<" else ">" in
  let read := PEvent.file_endian pevent_is_file_bigendian in
  value_of (read fresh) = Returned sign
  /\ read (state_of (read fresh)) = (Returned sign, state_of (read fresh), [])
  /\ value_of (read (state_of (PEvent.del_file_endian
                                 (state_of (read fresh)))))
     = Returned sign
  /\ PEvent.del_file_endian fresh
     = (Raised (AttributeError
                  "'PEvent' object has no attribute '__cached_properties'"),
        fresh, []).
Proof.
  cbv zeta. unfold PEvent.file_endian, PEvent.del_file_endian,
    PEvent.__init__.
  unfold CachedProperty._get, CachedProperty._del, CachedProperty._compute,
    CachedProperty._store, PEvent.file_endian_body, bindx, retx.
  cbn. destruct (pevent_is_file_bigendian pe =? 0); cbn;
    repeat split; reflexivity.
Qed.

End PEventFacts.

(** ** The further properties on the sample captures *)

Section FurtherSamples.
Import SpecLib Sample.

Ltac sample_streams :=
  repeat (apply Forall_cons; [cbn; lia|]); apply Forall_nil.

(** X1 on a fresh sample Event. *)
Lemma comm_resolved_through_pid_witness :
  exists p,
    value_of (Event.pid (event (rec 0 100 1))) = Return p
    /\ value_of (Event.comm (event (rec 0 100 1)))
       = Return (pevent_data_comm_from_pid
                   (Event._pevent (event (rec 0 100 1))) p)
    /\ calls_of (Event.comm (event (rec 0 100 1)))
       = calls_of (Event.pid (event (rec 0 100 1)))
         ++ [pevent_data_comm_from_pid_call p]
    /\ Event.pid (state_of (Event.comm (event (rec 0 100 1))))
       = (Return p, state_of (Event.comm (event (rec 0 100 1))), []).
Proof.
  apply (@comm_resolved_through_pid lib (event (rec 0 100 1))).
  reflexivity.
Defined.

(** X2 on the integer field [prio] of the sample Event. *)
Lemma item_coercions_witness :
  exists fld,
    value_of (Event.__getitem__ "prio" (event (rec 0 100 1))) = Return fld
    /\ value_of (Event.str_field "prio" (event (rec 0 100 1)))
       = result_map Some (value_of (Field.__str__ fld))
    /\ match value_of (Field.__long__ fld) with
       | Return v =>
           value_of (Event.num_field "prio" (event (rec 0 100 1)))
           = Return (Some v)
       | Raise e =>
           e = FieldError "Not a number field"
           /\ value_of (Event.num_field "prio" (event (rec 0 100 1)))
              = Return None
       end.
Proof.
  apply (@item_coercions_agree_with_field_readers lib (event (rec 0 100 1))
           "prio" f_prio); reflexivity.
Defined.

(** X3 on the Event of a record cut after its type-id. *)
Lemma str_TypeError_witness :
  value_of (Event.__str__ (event rec_tiny))
  = Raised (TypeError "%d format: a number is required, not NoneType")
  /\ state_of (Event.__str__ (event rec_tiny))
     = state_of (Event.comm (event rec_tiny))
  /\ exists c,
       Event.comm (state_of (Event.__str__ (event rec_tiny)))
       = (Return c, state_of (Event.__str__ (event rec_tiny)), []).
Proof.
  apply (@str_raises_TypeError_without_common_pid lib (event rec_tiny)).
  reflexivity.
Defined.

(** X5 and X6 on the capture with a record of unknown type. *)
Lemma events_yield_witness :
  exists evs self' calls,
    Trace.events 10 (-1) 0 0 (session with_unknown)
    = (Return (Some evs), self', calls)
    /\ evs = flat_map
               (fun c => Trace.yielded
                           (Trace._pevent (session with_unknown)) 0
                           (Trace.from_timestamp
                              (Trace._handle (session with_unknown)) c 0))
               (Trace.selected (Trace.cpus (session with_unknown)) (-1))
    /\ Forall (fun e => 0 > 0 -> Event.ts e <= 0) evs
    /\ Trace.same_capture (session with_unknown) self'.
Proof.
  apply (@events_yield_stream_prefixes lib 10 (-1) 0 0 (session with_unknown)).
  - split; reflexivity.
  - sample_streams.
Defined.

Lemma records_yield_witness :
  exists recs self' calls,
    Trace.records 10 (-1) 0 0 (session with_unknown)
    = (Return (Some recs), self', calls)
    /\ recs = flat_map
                (fun c => Trace.within 0
                            (Trace.from_timestamp
                               (Trace._handle (session with_unknown)) c 0))
                (Trace.selected (Trace.cpus (session with_unknown)) (-1))
    /\ Forall (fun r => 0 > 0 -> rec_ts r <= 0) recs
    /\ Trace.same_capture (session with_unknown) self'.
Proof.
  apply (@records_yield_stream_sections lib 10 (-1) 0 0
           (session with_unknown)).
  - split; reflexivity.
  - sample_streams.
Defined.

(** X7, X8 and X9 on the capture of the spec's scenario, between 150 and
    250 and without bounds. *)
Lemma events_follow_records_witness :
  result_map (option_map (map Event._record))
             (value_of (Trace.events 10 (-1) 150 250 (session two_cpus)))
  = value_of (Trace.records 10 (-1) 150 250 (session two_cpus)).
Proof.
  apply (@events_follow_records_when_all_bound lib 10 (-1) 150 250
           (session two_cpus)).
  - split; reflexivity.
  - sample_streams.
  - intros s r [<-|[<-|[]]].
    + intros [<-|[<-|[<-|[]]]]; discriminate.
    + intros [<-|[<-|[]]]; discriminate.
Defined.

Lemma records_enumerate_witness :
  value_of (Trace.records 10 (-1) 0 0 (session two_cpus))
  = Return (Some (List.concat (h_streams (Trace._handle (session two_cpus))))).
Proof.
  apply (@records_enumerate_capture lib 10 0 0 (session two_cpus)).
  - split; reflexivity.
  - sample_streams.
  - lia.
  - intros s r [<-|[<-|[]]].
    + intros [<-|[<-|[<-|[]]]]; cbn; lia.
    + intros [<-|[<-|[]]]; cbn; lia.
Defined.

Lemma time_window_witness :
  (exists recs,
     value_of (Trace.records 10 (-1) 150 250 (session two_cpus))
     = Return (Some recs)
     /\ Forall (fun r => 150 <= rec_ts r /\ (250 > 0 -> rec_ts r <= 250))
               recs)
  /\ (exists evs,
        value_of (Trace.events 10 (-1) 150 250 (session two_cpus))
        = Return (Some evs)
        /\ Forall (fun e => 150 <= Event.ts e
                            /\ (250 > 0 -> Event.ts e <= 250)) evs).
Proof.
  apply (@generators_stay_in_time_window lib 10 (-1) 150 250
           (session two_cpus)).
  - split; reflexivity.
  - sample_streams.
  - intros s [<-|[<-|[]]];
      repeat (apply SSorted_cons;
              [|repeat (apply Forall_cons; [cbn; lia|]); apply Forall_nil]);
      apply SSorted_nil.
Defined.

(** X10 on the scenario's session and the same session after a rewind. *)
Lemma ignore_cursors_witness :
  let self := session two_cpus in
  let self' := state_of (Trace.rewind 0 250 self) in
  value_of (Trace.events 10 (-1) 0 0 self')
  = value_of (Trace.events 10 (-1) 0 0 self)
  /\ value_of (Trace.records 10 (-1) 0 0 self')
     = value_of (Trace.records 10 (-1) 0 0 self)
  /\ value_of (Trace.events 10 (-1) 0 0
                 (state_of (Trace.events 10 (-1) 0 0 self)))
     = value_of (Trace.events 10 (-1) 0 0 self).
Proof.
  cbv zeta.
  apply (@generators_ignore_cursor_positions lib 10 (-1) 0 0
           (session two_cpus)
           (state_of (Trace.rewind 0 250 (session two_cpus)))).
  - split; reflexivity.
  - sample_streams.
  - repeat split; reflexivity.
Defined.

(** X11 with the selector 7 on the capture of two CPUs. *)
Lemma unknown_cpu_witness :
  Trace.events 10 7 0 0 (session two_cpus)
  = (Return (Some []), session two_cpus, [])
  /\ Trace.records 10 7 0 0 (session two_cpus)
     = (Return (Some []), session two_cpus, []).
Proof.
  apply (@generators_yield_nothing_for_unknown_cpu lib 10 7 0 0
           (session two_cpus)).
  - lia.
  - cbn. lia.
Defined.

(** X12: a rewind of CPU 1 to 200, and a rewind with the selector 7. *)
Lemma rewind_witness :
  (cpu_cursor (Trace._handle (state_of (Trace.rewind 1 200
                                          (session two_cpus)))) 1
   = seek_index 200 (cpu_stream (Trace._handle (session two_cpus)) 1)
   /\ (forall c', c' <> 1 ->
         cpu_cursor (Trace._handle (state_of (Trace.rewind 1 200
                                                (session two_cpus)))) c'
         = cpu_cursor (Trace._handle (session two_cpus)) c')
   /\ calls_of (Trace.rewind 1 200 (session two_cpus))
      = [tracecmd_set_cpu_to_timestamp_call 1 200])
  /\ ((forall c',
         cpu_cursor (Trace._handle (state_of (Trace.rewind 7 200
                                                (session two_cpus)))) c'
         = seek_index 200 (cpu_stream (Trace._handle (session two_cpus)) c'))
      /\ calls_of (Trace.rewind 7 200 (session two_cpus))
         = [tracecmd_set_all_cpus_to_timestamp_call 200]).
Proof.
  split.
  - apply (proj1 (@rewind_moves_one_cursor_or_all lib 1 200
                    (session two_cpus) (conj eq_refl eq_refl))).
    cbn. lia.
  - apply (proj2 (@rewind_moves_one_cursor_or_all lib 7 200
                    (session two_cpus) (conj eq_refl eq_refl))).
    cbn. lia.
Defined.

(** X13 on CPU 0 of the capture with a record of unknown type, once the
    record at 100 has been read. *)
Lemma read_event_witness :
  let self := state_of (Trace.read_event 0 (session with_unknown)) in
  let after := state_of (Trace.read_event 0 self) in
  value_of (Trace.read_event 0 self) = Return None
  /\ cpu_cursor (Trace._handle after) 0 = 2%nat
  /\ value_of (Trace.read_event 0 after)
     = Return (Some (event (rec 0 300 1))).
Proof.
  cbv zeta.
  apply (proj1 (@read_event_consumes_unbound_record lib 0
                  (state_of (Trace.read_event 0 (session with_unknown)))
                  (conj eq_refl eq_refl) (conj (Z.le_refl 0) eq_refl))
               (rec 0 200 99)); reflexivity.
Defined.

(** X14 on a record of type-id 0 with a catalog that has a schema for 0. *)
Lemma record_to_event_type_zero_witness :
  pevent_data_event_from_type (Trace._pevent (session with_zero)) 0
  = Some zero_event
  /\ forall e,
       value_of (Trace.record_to_event (Some (rec 0 100 0))
                   (session with_zero))
       <> Return (Some e).
Proof.
  split; [reflexivity|]. intros e H.
  apply (proj2 (@record_to_event_gives_event_iff lib (session with_zero)
                  (Some (rec 0 100 0)))) in H.
  destruct H as (r & fmt & E & T & _). injection E as <-.
  apply T. reflexivity.
Defined.


(** X16 and X19 on the capture of two CPUs without records. *)
Lemma raises_iff_witness :
  value_of (Trace.start_time (-1) (session all_empty))
  = Raise (ValueError "min() arg is an empty sequence")
  /\ value_of (Trace.end_time (-1) (session all_empty))
     = Raise (ValueError "max() arg is an empty sequence").
Proof.
  split.
  - apply (proj1 (@first_access_raises_iff_no_positive_entry lib (-1)
                    (session all_empty))); [reflexivity|].
    intros v [<-|[<-|[]]]; apply Z.leb_le; reflexivity.
  - apply (proj2 (@first_access_raises_iff_no_positive_entry lib (-1)
                    (session all_empty))); [reflexivity|].
    intros v [<-|[<-|[]]]; apply Z.leb_le; reflexivity.
Defined.

Lemma access_after_ValueError_witness :
  Trace.start_time_property
    (state_of (Trace.start_time_property (session all_empty)))
  = (Return 0, state_of (Trace.start_time_property (session all_empty)), [])
  /\ Trace.end_time_property
       (state_of (Trace.end_time_property (session all_empty)))
     = (Return 0, state_of (Trace.end_time_property (session all_empty)), []).
Proof.
  split.
  - apply (proj1 (@access_after_ValueError lib (session all_empty)));
      [reflexivity| |cbn; lia].
    intros v [<-|[<-|[]]]; apply Z.leb_le; reflexivity.
  - apply (proj2 (@access_after_ValueError lib (session all_empty)));
      [reflexivity| |cbn; lia].
    intros v [<-|[<-|[]]]; apply Z.leb_le; reflexivity.
Defined.

(** X17 and X18 on the scenario's session. *)
Lemma start_time_table_witness :
  let after := state_of (Trace.start_time (-1) (session two_cpus)) in
  exists m,
    Trace._start_time after
    = Some (Trace.first_timestamps (session two_cpus) ++ [m])
    /\ In m (Trace.first_timestamps (session two_cpus)) /\ m > 0
    /\ (forall v, In v (Trace.first_timestamps (session two_cpus)) ->
          v > 0 -> m <= v)
    /\ Trace.start_time (-1) after = (Return m, after, [])
    /\ (forall cpu, 0 <= cpu < Trace.cpus (session two_cpus) ->
          Trace.start_time cpu after
          = (Return (Trace.ts_or_zero
                       (tracecmd_read_cpu_first
                          (Trace._handle (session two_cpus)) cpu)),
             after, []))
    /\ (forall sel,
          Trace.cpus (session two_cpus) < sel
          \/ sel < - (Trace.cpus (session two_cpus) + 1) ->
          Trace.start_time sel after
          = (Raise (IndexError "list index out of range"), after, [])).
Proof.
  apply (@start_time_table_after_first_access lib (-1) (session two_cpus)).
  - reflexivity.
  - exists 100. split; [left; reflexivity|lia].
Defined.

Lemma end_time_table_witness :
  let after := state_of (Trace.end_time (-1) (session two_cpus)) in
  exists m,
    Trace._end_time after
    = Some (Trace.last_timestamps (session two_cpus) ++ [m])
    /\ In m (Trace.last_timestamps (session two_cpus))
    /\ (forall v, In v (Trace.last_timestamps (session two_cpus)) -> v <= m)
    /\ Trace.end_time (-1) after = (Return m, after, [])
    /\ (forall cpu, 0 <= cpu < Trace.cpus (session two_cpus) ->
          Trace.end_time cpu after
          = (Return (Trace.ts_or_zero
                       (tracecmd_read_cpu_last
                          (Trace._handle (session two_cpus)) cpu)),
             after, []))
    /\ (forall sel,
          Trace.cpus (session two_cpus) < sel
          \/ sel < - (Trace.cpus (session two_cpus) + 1) ->
          Trace.end_time sel after
          = (Raise (IndexError "list index out of range"), after, [])).
Proof.
  apply (@end_time_table_after_first_access lib (-1) (session two_cpus)).
  - reflexivity.
  - exists 300. split; [left; reflexivity|lia].
Defined.

(** X20 to X23 on an object of a class "Field" with integer values. *)
Lemma cached_read_witness :
  let fresh : CachedProperty.object unit Z :=
    {| CachedProperty.attrs := tt;
                  CachedProperty.__cached_properties := None |} in
  let func : PyX (CachedProperty.object unit Z) Z :=
    fun s => (Returned 7, s, [pevent_data_pid_call]) in
  let after := state_of (CachedProperty._get "Field" func "data" fresh) in
  CachedProperty._get "Field" func "data" after = (Returned 7, after, []).
Proof.
  cbv zeta.
  apply (@cached_property_read_is_cached unit Z "Field"
           (fun s => (Returned 7, s, [pevent_data_pid_call]))
           (fun s => (Returned 7, s, [pevent_data_pid_call])) "data"
           {| CachedProperty.attrs := tt;
              CachedProperty.__cached_properties := None |} 7).
  reflexivity.
Defined.

Lemma cached_delete_witness :
  let fresh : CachedProperty.object unit Z :=
    {| CachedProperty.attrs := tt;
                  CachedProperty.__cached_properties := None |} in
  let read : CachedProperty.object unit Z :=
    {| CachedProperty.attrs := tt;
                 CachedProperty.__cached_properties :=
                   Some [("data", 7); ("size", 4)] |} in
  let func : PyX (CachedProperty.object unit Z) Z :=
    fun s => (Returned 8, s, []) in
  CachedProperty._del "Field" "data" fresh
  = (Raised (CachedProperty.no_attribute "Field"), fresh, [])
  /\ value_of (CachedProperty._get "Field" func "data"
                 (state_of (CachedProperty._del "Field" "data" read)))
     = Returned 8
  /\ value_of (CachedProperty._get "Field" func "size"
                 (state_of (CachedProperty._del "Field" "data" read)))
     = Returned 4.
Proof.
  cbv zeta. split; [|split].
  - apply (proj1 (@cached_property_delete unit Z "Field"
                    (fun s => (Returned 8, s, [])) "data"
                    {| CachedProperty.attrs := tt;
                       CachedProperty.__cached_properties := None |})).
    reflexivity.
  - destruct (proj2 (@cached_property_delete unit Z "Field"
                       (fun s => (Returned 8, s, [])) "data"
                       {| CachedProperty.attrs := tt;
                          CachedProperty.__cached_properties :=
                            Some [("data", 7); ("size", 4)] |})
                    [("data", 7); ("size", 4)] eq_refl) as (_ & _ & E & _).
    rewrite E. reflexivity.
  - destruct (proj2 (@cached_property_delete unit Z "Field"
                       (fun s => (Returned 8, s, [])) "data"
                       {| CachedProperty.attrs := tt;
                          CachedProperty.__cached_properties :=
                            Some [("data", 7); ("size", 4)] |})
                    [("data", 7); ("size", 4)] eq_refl) as (_ & _ & _ & K).
    assert (N : "size" <> "data") by discriminate.
    rewrite (K "size" (fun s => (Returned 8, s, [])) N 4 eq_refl).
    reflexivity.
Defined.

Lemma cached_apart_witness :
  let read : CachedProperty.object unit Z :=
    {| CachedProperty.attrs := tt;
                 CachedProperty.__cached_properties := Some [("data", 7)] |} in
  let func1 : PyX (CachedProperty.object unit Z) Z :=
    fun s => (Returned 8, s, []) in
  let func2 : PyX (CachedProperty.object unit Z) Z :=
    fun s => (Returned 4, s, []) in
  let after := state_of (CachedProperty._get "Field" func2 "size" read) in
  CachedProperty._get "Field" func1 "data" after = (Returned 7, after, []).
Proof.
  cbv zeta.
  apply (@cached_properties_are_kept_apart unit Z "Field"
           (fun s => (Returned 8, s, [])) (fun s => (Returned 4, s, []))
           "data" "size"
           {| CachedProperty.attrs := tt;
              CachedProperty.__cached_properties := Some [("data", 7)] |}
           [("data", 7)] 7).
  - discriminate.
  - reflexivity.
  - reflexivity.
  - intros s. reflexivity.
Defined.

Lemma failed_read_witness :
  let fresh : CachedProperty.object unit Z :=
    {| CachedProperty.attrs := tt;
                  CachedProperty.__cached_properties := None |} in
  let func : PyX (CachedProperty.object unit Z) Z :=
    fun s => (Raised (raised (DecodeError Truncated)), s, []) in
  let after := state_of (CachedProperty._get "Field" func "data" fresh) in
  CachedProperty._get "Field" func "data" after
  = CachedProperty._compute "Field" func "data" after
  /\ exists after',
       CachedProperty._del "Field" "data" after = (Returned tt, after', []).
Proof.
  cbv zeta.
  apply (@failed_read_is_not_cached unit Z "Field"
           (fun s => (Raised (raised (DecodeError Truncated)), s, []))
           "data"
           {| CachedProperty.attrs := tt;
              CachedProperty.__cached_properties := None |}
           (raised (DecodeError Truncated))).
  - intros s. reflexivity.
  - reflexivity.
Defined.

End FurtherSamples.
